(** * ImageSplitter: a shallow embedding of [src/App.tsx]

    The component [App] keeps twelve pieces of React state and a handful of
    event handlers.  Each handler is embedded as a function on the record
    [AppState]; what a handler hands to the browser (a decode request, a
    download, an archive) is returned next to the new state.

    Numbers.  A JavaScript [number] is modelled by [number]: [NaN], the two
    infinities, or a finite value kept as a rational in lowest terms, so that
    Leibniz equality is numeric equality.  Binary64 rounding is not modelled:
    the only arithmetic of the program is a division by two and the test
    "is this number falsy", and the pixel quantities are halves of unsigned
    32-bit integers, all of which binary64 represents exactly.  The two
    zeros of JavaScript are one value here; both are falsy. *)

From Stdlib Require Import ZArith QArith Qround Qcanon Bool String Ascii List Lia.
From Stdlib Require Import DecimalString DecimalNat Lqa.
Import ListNotations.

Local Open Scope Z_scope.
Local Open Scope Q_scope.
Local Open Scope list_scope.
Local Open Scope string_scope.

(** ** JavaScript numbers *)

Inductive number : Type :=
| NaN
| Infinity (negative : bool)
| Fin (q : Q).

(** A numeric literal of the source, such as [29.7]. *)
Definition lit (q : Q) : number := Fin (Qred q).

(** [ofInt n]: the number held by an integer attribute such as
    [canvas.width]. *)
Definition ofInt (n : Z) : number := Fin (inject_Z n).

(** [ToBoolean] on numbers: [NaN] and zero are falsy. *)
Definition truthy (x : number) : bool :=
  match x with
  | NaN => false
  | Infinity _ => true
  | Fin q => negb (Qeq_bool q 0)
  end.

(** [x || y] on numbers. *)
Definition or_else (x y : number) : number := if truthy x then x else y.

(** [x / 2]. *)
Definition half (x : number) : number :=
  match x with
  | NaN => NaN
  | Infinity s => Infinity s
  | Fin q => Fin (Qred (q / 2))
  end.

(** Conversion of a number to the [unsigned long] of a canvas size
    attribute: not-a-number and the infinities give 0, a finite value is
    truncated towards zero and taken modulo 2^32. *)
Definition Qtrunc (q : Q) : Z := if Qle_bool 0 q then Qfloor q else Qceiling q.

Definition toUnsignedLong (x : number) : Z :=
  match x with
  | Fin q => (Qtrunc q mod 2 ^ 32)%Z
  | _ => 0%Z
  end.

(** ** Types of the source (lines 17-39) *)

Inductive Orientation : Type := portrait | landscape.

Inductive PaperFormat : Type := A4 | A3 | A2 | custom.

Record Dimensions : Type := { width : number; height : number }.

(** A decoded [HTMLImageElement]: its pixel size (the pixels themselves play
    no part in what follows). *)
Record HTMLImageElement : Type := { img_width : Z; img_height : Z }.

(** The rectangle [(x, y, width, height)] passed to [createSection] and from
    there to [drawImage] as the source rectangle. *)
Record Rect : Type := { rx : number; ry : number; rw : number; rh : number }.

(** What a section canvas holds when it is encoded: its size in pixels, and
    the source rectangle of the image drawn onto it at the origin. *)
Record Raster : Type :=
  { canvasWidth : Z; canvasHeight : Z; drawnFrom : HTMLImageElement; sourceRect : Rect }.

(** A data URL [data:<mediaType>;base64,<payload>].  The URL [data:,] that
    [toDataURL] returns for a canvas without pixels has the empty media
    type, and its payload is a raster of width or height 0. *)
Record DataUrl : Type := { mediaType : string; payload : Raster }.

(** [canvas.toDataURL(type)]: the encoding of the canvas in the given type,
    and [data:,] when the canvas is 0 pixels wide or high. *)
Definition toDataURL (type : string) (canvas : Raster) : DataUrl :=
  {| mediaType :=
       if ((canvasWidth canvas =? 0) || (canvasHeight canvas =? 0))%Z then "" else type;
     payload := canvas |}.

Record ImageSection : Type := { dataUrl : DataUrl; dimensions : Dimensions }.

Definition PAPER_FORMATS (f : PaperFormat) : Dimensions :=
  match f with
  | A4 => {| width := lit 21; height := lit 29.7 |}
  | A3 => {| width := lit 29.7; height := lit 42 |}
  | A2 => {| width := lit 42; height := lit 59.4 |}
  | custom => {| width := lit 20; height := lit 20 |}
  end.

(** ** Component state (lines 43-54)

    [splitSections] may hold [None]: [createSection] returns [null] when a
    section canvas has no 2d context, and the non-null assertion [!] of
    TypeScript is erased at run time, so the [null] is pushed. *)

Record AppState : Type := {
  darkMode : bool;
  sourceImage : option HTMLImageElement;
  fileName : string;
  fileType : string;
  paperFormat : PaperFormat;
  orientation : Orientation;
  customDimensions : Dimensions;
  splitSections : list (option ImageSection);
  isProcessing : bool;
  error : option string;
  previewImageUrl : option DataUrl;
  isPreviewOpen : bool
}.

Definition initialState : AppState := {|
  darkMode := false;
  sourceImage := None;
  fileName := "";
  fileType := "";
  paperFormat := A4;
  orientation := portrait;
  customDimensions := {| width := lit 20; height := lit 20 |};
  splitSections := [];
  isProcessing := false;
  error := None;
  previewImageUrl := None;
  isPreviewOpen := false
|}.

(** The state setters returned by [useState]. *)

Definition setSourceImage (v : option HTMLImageElement) (st : AppState) : AppState :=
  {| darkMode := darkMode st; sourceImage := v; fileName := fileName st;
     fileType := fileType st; paperFormat := paperFormat st;
     orientation := orientation st; customDimensions := customDimensions st;
     splitSections := splitSections st; isProcessing := isProcessing st;
     error := error st; previewImageUrl := previewImageUrl st;
     isPreviewOpen := isPreviewOpen st |}.

Definition setFileName (v : string) (st : AppState) : AppState :=
  {| darkMode := darkMode st; sourceImage := sourceImage st; fileName := v;
     fileType := fileType st; paperFormat := paperFormat st;
     orientation := orientation st; customDimensions := customDimensions st;
     splitSections := splitSections st; isProcessing := isProcessing st;
     error := error st; previewImageUrl := previewImageUrl st;
     isPreviewOpen := isPreviewOpen st |}.

Definition setFileType (v : string) (st : AppState) : AppState :=
  {| darkMode := darkMode st; sourceImage := sourceImage st; fileName := fileName st;
     fileType := v; paperFormat := paperFormat st;
     orientation := orientation st; customDimensions := customDimensions st;
     splitSections := splitSections st; isProcessing := isProcessing st;
     error := error st; previewImageUrl := previewImageUrl st;
     isPreviewOpen := isPreviewOpen st |}.

Definition setPaperFormat (v : PaperFormat) (st : AppState) : AppState :=
  {| darkMode := darkMode st; sourceImage := sourceImage st; fileName := fileName st;
     fileType := fileType st; paperFormat := v;
     orientation := orientation st; customDimensions := customDimensions st;
     splitSections := splitSections st; isProcessing := isProcessing st;
     error := error st; previewImageUrl := previewImageUrl st;
     isPreviewOpen := isPreviewOpen st |}.

(** [setOrientation] and [setCustomDimensions] are called with an updater
    function of the previous value. *)
Definition setOrientation (f : Orientation -> Orientation) (st : AppState) : AppState :=
  {| darkMode := darkMode st; sourceImage := sourceImage st; fileName := fileName st;
     fileType := fileType st; paperFormat := paperFormat st;
     orientation := f (orientation st); customDimensions := customDimensions st;
     splitSections := splitSections st; isProcessing := isProcessing st;
     error := error st; previewImageUrl := previewImageUrl st;
     isPreviewOpen := isPreviewOpen st |}.

Definition setCustomDimensions (f : Dimensions -> Dimensions) (st : AppState) : AppState :=
  {| darkMode := darkMode st; sourceImage := sourceImage st; fileName := fileName st;
     fileType := fileType st; paperFormat := paperFormat st;
     orientation := orientation st; customDimensions := f (customDimensions st);
     splitSections := splitSections st; isProcessing := isProcessing st;
     error := error st; previewImageUrl := previewImageUrl st;
     isPreviewOpen := isPreviewOpen st |}.

Definition setSplitSections (v : list (option ImageSection)) (st : AppState) : AppState :=
  {| darkMode := darkMode st; sourceImage := sourceImage st; fileName := fileName st;
     fileType := fileType st; paperFormat := paperFormat st;
     orientation := orientation st; customDimensions := customDimensions st;
     splitSections := v; isProcessing := isProcessing st;
     error := error st; previewImageUrl := previewImageUrl st;
     isPreviewOpen := isPreviewOpen st |}.

Definition setIsProcessing (v : bool) (st : AppState) : AppState :=
  {| darkMode := darkMode st; sourceImage := sourceImage st; fileName := fileName st;
     fileType := fileType st; paperFormat := paperFormat st;
     orientation := orientation st; customDimensions := customDimensions st;
     splitSections := splitSections st; isProcessing := v;
     error := error st; previewImageUrl := previewImageUrl st;
     isPreviewOpen := isPreviewOpen st |}.

Definition setError (v : option string) (st : AppState) : AppState :=
  {| darkMode := darkMode st; sourceImage := sourceImage st; fileName := fileName st;
     fileType := fileType st; paperFormat := paperFormat st;
     orientation := orientation st; customDimensions := customDimensions st;
     splitSections := splitSections st; isProcessing := isProcessing st;
     error := v; previewImageUrl := previewImageUrl st;
     isPreviewOpen := isPreviewOpen st |}.

(** ** Upload (lines 66-93) *)

Record File : Type := { file_name : string; file_type : string }.

Definition validFileTypes : list string := ["image/jpeg"; "image/png"; "image/tiff"].

(** [Array.prototype.includes] on strings. *)
Definition includes (l : list string) (s : string) : bool :=
  existsb (String.eqb s) l.

(** The synchronous part of [handleFileUpload].  The second component is the
    decode the handler starts ([img.src = URL.createObjectURL(file)]), if
    any; its outcome arrives later as [img_onload] or [img_onerror]. *)
Definition handleFileUpload (file : option File) (st : AppState)
  : AppState * option File :=
  match file with
  | None => (st, None)
  | Some f =>
      if negb (includes validFileTypes (file_type f)) then
        (setError (Some "Invalid file type. Please upload JPG, PNG, or TIFF.") st, None)
      else
        (setFileType (file_type f) (setFileName (file_name f) (setError None st)),
         Some f)
  end.

Definition img_onload (img : HTMLImageElement) (st : AppState) : AppState :=
  setSplitSections [] (setSourceImage (Some img) st).

Definition img_onerror (st : AppState) : AppState :=
  setError (Some "Failed to load image. Please try another file.") st.

(** ** Orientation and the dimension resolver (lines 115-125) *)

Definition toggleOrientation (st : AppState) : AppState :=
  setOrientation
    (fun prev => match prev with portrait => landscape | landscape => portrait end) st.

Definition getCurrentDimensions (st : AppState) : Dimensions :=
  let baseDimensions :=
    match paperFormat st with
    | custom => customDimensions st
    | f => PAPER_FORMATS f
    end in
  match orientation st with
  | landscape => {| width := height baseDimensions; height := width baseDimensions |}
  | portrait => baseDimensions
  end.

(** ** The partitioner (lines 128-203)

    [document.createElement('canvas').getContext('2d')] may return [null];
    whether it does is the environment's choice, once for the full-size
    canvas and once for each of the four section canvases. *)

Record CanvasEnv : Type := {
  mainContext : bool;
  sectionContext : nat -> bool
}.

(** The helper [createSection] (lines 164-186); [k] counts its calls. *)
Definition createSection (env : CanvasEnv) (sourceImage : HTMLImageElement)
    (outputDimensions : Dimensions) (k : nat) (x y w h : number)
  : option ImageSection :=
  if negb (sectionContext env k) then None
  else
    Some {| dataUrl :=
              toDataURL "image/png"
                {| canvasWidth := toUnsignedLong w;
                   canvasHeight := toUnsignedLong h;
                   drawnFrom := sourceImage;
                   sourceRect := {| rx := x; ry := y; rw := w; rh := h |} |};
            dimensions := {| width := half (width outputDimensions);
                             height := half (height outputDimensions) |} |}.

(** [processImage].  The result is [None] when an exception leaves the
    handler: [getImageData] throws on a canvas of width or height zero. *)
Definition processImage (env : CanvasEnv) (st : AppState) : option AppState :=
  match sourceImage st with
  | None => Some st
  | Some img =>
      let st := setIsProcessing true st in
      let outputDimensions := getCurrentDimensions st in
      if negb (mainContext env) then
        Some (setIsProcessing false
                (setError (Some "Canvas not supported in your browser.") st))
      else if ((img_width img <=? 0) || (img_height img <=? 0))%Z then None
      else
        let halfWidth := half (ofInt (img_width img)) in
        let halfHeight := half (ofInt (img_height img)) in
        let sections :=
          [ createSection env img outputDimensions 0 (lit 0) (lit 0) halfWidth halfHeight;
            createSection env img outputDimensions 1 halfWidth (lit 0) halfWidth halfHeight;
            createSection env img outputDimensions 2 (lit 0) halfHeight halfWidth halfHeight;
            createSection env img outputDimensions 3 halfWidth halfHeight halfWidth halfHeight ] in
        Some (setIsProcessing false (setSplitSections sections st))
  end.

(** ** Export (lines 206-234) *)

(** [String.prototype.split] with a one-character separator. *)
Fixpoint split (sep : ascii) (s : string) : list string :=
  match s with
  | EmptyString => [EmptyString]
  | String c r =>
      if Ascii.eqb c sep then EmptyString :: split sep r
      else match split sep r with
           | piece :: pieces => String c piece :: pieces
           | [] => [String c EmptyString]
           end
  end.

(** [`${n}`] for a non-negative integer [n]. *)
Definition toString (n : nat) : string := NilEmpty.string_of_uint (Nat.to_uint n).

(** What [downloadSection] hands to the browser: an anchor with [href] and
    [download] set, clicked once. *)
Record Anchor : Type := { href : DataUrl; download : string }.

Definition downloadSection (st : AppState) (dataUrl : DataUrl) (index : nat) : Anchor :=
  {| href := dataUrl;
     download := hd "" (split "." (fileName st)) ++ "_section_" ++ toString (index + 1) ++ ".png" |}.

(** The archive handed to [saveAs]: the folder, its entries in insertion
    order, and the name the archive is saved under. *)
Record Archive : Type := {
  folder : string;
  entries : list (string * Raster);
  savedAs : string
}.

Inductive ExportOutcome : Type :=
| NoAction
| Threw
| Saved (archive : Archive).

(** The [forEach] loop of lines 225-229 from index [index] on; [None] when
    reading [dataUrl] of a [null] section throws. *)
Fixpoint addSections (fileName : string) (sections : list (option ImageSection))
    (index : nat) (imgFolder : list (string * Raster))
  : option (list (string * Raster)) :=
  match sections with
  | [] => Some imgFolder
  | None :: _ => None
  | Some section :: rest =>
      let base64Data := payload (dataUrl section) in
      addSections fileName rest (S index)
        (List.app imgFolder
           [(hd "" (split "." fileName) ++ "_section_" ++ toString (index + 1) ++ ".png",
             base64Data)])
  end.

(** [downloadAllSections]; [folderCreated] tells whether [zip.folder]
    returned a folder.  The handler sets no state. *)
Definition downloadAllSections (folderCreated : bool) (st : AppState)
  : AppState * ExportOutcome :=
  if (List.length (splitSections st) =? 0)%nat then (st, NoAction)
  else if negb folderCreated then (st, NoAction)
  else
    match addSections (fileName st) (splitSections st) 0 [] with
    | None => (st, Threw)
    | Some files =>
        (st, Saved {| folder := "split_images";
                      entries := files;
                      savedAs := hd "" (split "." (fileName st)) ++ "_split_images.zip" |})
    end.

(** ** Custom dimension fields (lines 341-366)

    [parseFloat] is a built-in of the platform: the handlers are embedded
    over an arbitrary function from strings to numbers. *)

Section CustomFields.

Variable parseFloat : string -> number.

Definition width_onChange (value : string) (st : AppState) : AppState :=
  setCustomDimensions
    (fun prev => {| width := or_else (parseFloat value) (lit 1); height := height prev |})
    st.

Definition height_onChange (value : string) (st : AppState) : AppState :=
  setCustomDimensions
    (fun prev => {| width := width prev; height := or_else (parseFloat value) (lit 1) |})
    st.

End CustomFields.

(** ** A decimal [parseFloat]

    An executable reading of the built-in, used to run the handlers on
    concrete strings: leading white space is skipped and the longest prefix
    that is a decimal literal (sign, [Infinity], digits, fraction, exponent)
    is read; with no such prefix the result is [NaN].  Within the range of
    binary64 the value is exact, not rounded; a magnitude that binary64
    rounds to infinity (from [2^1024 - 2^970] on) gives [Infinity], and one
    that it rounds to zero (up to [2^-1075]) gives zero. *)

Definition overflowThreshold : Q := inject_Z (2 ^ 1024 - 2 ^ 970).

Definition underflowThreshold : Q := Qpower (2 # 1) (-1075).

Definition isWhiteSpace (c : ascii) : bool :=
  let n := nat_of_ascii c in
  ((n =? 32) || ((9 <=? n) && (n <=? 13)))%nat.

Fixpoint trimStart (s : string) : string :=
  match s with
  | String c r => if isWhiteSpace c then trimStart r else s
  | EmptyString => s
  end.

Definition digitOf (c : ascii) : option Z :=
  let n := nat_of_ascii c in
  if ((48 <=? n) && (n <=? 57))%nat then Some (Z.of_nat n - 48)%Z else None.

(** Reads a run of digits after the value [acc]: the value read, the number
    of digits read, and what follows them. *)
Fixpoint readDigits (s : string) (acc : Z) (count : nat) : Z * nat * string :=
  match s with
  | String c r =>
      match digitOf c with
      | Some d => readDigits r (10 * acc + d)%Z (S count)
      | None => (acc, count, s)
      end
  | EmptyString => (acc, count, s)
  end.

Definition readSign (s : string) : bool * string :=
  match s with
  | String "-" r => (true, r)
  | String "+" r => (false, r)
  | _ => (false, s)
  end.

Definition readExponent (s : string) : Z :=
  match s with
  | String c r =>
      if (Ascii.eqb c "e" || Ascii.eqb c "E")%bool then
        let '(neg, r) := readSign r in
        let '(e, count, _) := readDigits r 0 0 in
        match count with
        | O => 0%Z
        | S _ => if neg then (- e)%Z else e
        end
      else 0%Z
  | EmptyString => 0%Z
  end.

Definition parseFloatDecimal (input : string) : number :=
  let '(neg, s) := readSign (trimStart input) in
  if String.prefix "Infinity" s then Infinity neg
  else
    let '(int, intDigits, s) := readDigits s 0 0 in
    let '(mant, fracDigits, s) :=
      match s with
      | String "." r => readDigits r int 0
      | _ => (int, O, s)
      end in
    match (intDigits + fracDigits)%nat with
    | O => NaN
    | S _ =>
        let magnitude :=
          inject_Z mant * Qpower (10 # 1) (readExponent s - Z.of_nat fracDigits) in
        if Qle_bool overflowThreshold magnitude then Infinity neg
        else if Qle_bool magnitude underflowThreshold then lit 0
        else lit (if neg then - magnitude else magnitude)
    end.

(** ** The partition the specification describes

    Written from the specification's words, to be compared with what
    [processImage] passes to [createSection]: [midX = floor (W / 2)],
    [midY = floor (H / 2)], and the right and bottom regions take the
    remainder. *)

Definition specRegions (W H : Z) : list Rect :=
  let midX := (W / 2)%Z in
  let midY := (H / 2)%Z in
  [ {| rx := ofInt 0; ry := ofInt 0; rw := ofInt midX; rh := ofInt midY |};
    {| rx := ofInt midX; ry := ofInt 0; rw := ofInt (W - midX); rh := ofInt midY |};
    {| rx := ofInt 0; ry := ofInt midY; rw := ofInt midX; rh := ofInt (H - midY) |};
    {| rx := ofInt midX; ry := ofInt midY; rw := ofInt (W - midX); rh := ofInt (H - midY) |} ].

(** The source rectangles of a section list. *)
Definition regionOf (s : option ImageSection) : option Rect :=
  option_map (fun s => sourceRect (payload (dataUrl s))) s.

(** Whether the pixel in column [px] and row [py] lies in a rectangle:
    [x <= px < x + w] and [y <= py < y + h]. *)
Definition inRect (r : Rect) (px py : Z) : bool :=
  match rx r, ry r, rw r, rh r with
  | Fin x, Fin y, Fin w, Fin h =>
      Qle_bool x (inject_Z px) && negb (Qle_bool (x + w) (inject_Z px)) &&
      Qle_bool y (inject_Z py) && negb (Qle_bool (y + h) (inject_Z py))
  | _, _, _, _ => false
  end.

(** The number of rectangles of [rs] that hold the pixel. *)
Definition coverCount (rs : list Rect) (px py : Z) : nat :=
  List.length (filter (fun r => inRect r px py) rs).

(** ** The resolver the specification describes

    Written from the specification's words, to be compared with
    [getCurrentDimensions]: the base dimensions of the format, exchanged
    under landscape; under [custom], a supplied width or height that is not
    a positive number is a validation error ([None]). *)

Definition positiveNumber (x : number) : bool :=
  match x with
  | NaN => false
  | Infinity negative => negb negative
  | Fin q => negb (Qle_bool q 0)
  end.

(** The base dimensions of a format, [supplied] being the custom width and
    height handed to the resolver. *)
Definition specBase (format : PaperFormat) (supplied : Dimensions) : option Dimensions :=
  match format with
  | A4 => Some {| width := lit 21; height := lit 29.7 |}
  | A3 => Some {| width := lit 29.7; height := lit 42 |}
  | A2 => Some {| width := lit 42; height := lit 59.4 |}
  | custom =>
      if positiveNumber (width supplied) && positiveNumber (height supplied)
      then Some supplied else None
  end.

Definition specResolver (format : PaperFormat) (o : Orientation) (supplied : Dimensions)
  : option Dimensions :=
  match specBase format supplied with
  | None => None
  | Some base =>
      Some match o with
           | portrait => base
           | landscape => {| width := height base; height := width base |}
           end
  end.

(** ** Environments and states used in the examples *)

(** Contexts everywhere: the environment of an ordinary browser. *)
Definition allContexts : CanvasEnv :=
  {| mainContext := true; sectionContext := fun _ => true |}.

(** The state once a file [name] of type [type] has been accepted and has
    decoded to an image of [W] by [H] pixels. *)
Definition loaded (name type : string) (W H : Z) (st : AppState) : AppState :=
  img_onload {| img_width := W; img_height := H |}
    (fst (handleFileUpload (Some {| file_name := name; file_type := type |}) st)).

(** Width and height exchanged. *)
Definition swap (d : Dimensions) : Dimensions :=
  {| width := height d; height := width d |}.

(** The state in which the example of C3 is run: a 801 x 600 JPEG is
    loaded, the format is custom, and 15 and 10 were typed in the fields. *)
Definition customExample : AppState :=
  height_onChange parseFloatDecimal "10"
    (width_onChange parseFloatDecimal "15"
       (setPaperFormat custom (loaded "photo.JPG" "image/jpeg" 801 600 initialState))).

(** The example of the specification with an odd width, 801 x 600. *)
Definition odd801x600 : AppState := loaded "photo.JPG" "image/jpeg" 801 600 initialState.

(** An environment in which the second section canvas has no context. *)
Definition secondSectionBroken : CanvasEnv :=
  {| mainContext := true; sectionContext := fun k => negb (k =? 1)%nat |}.

(** An environment in which no canvas has a context. *)
Definition noContexts : CanvasEnv :=
  {| mainContext := false; sectionContext := fun _ => false |}.

(** ** The export names the specification describes *)

(** The base of a file name as the specification words it: the name with
    its first dot and everything after it removed. *)
Fixpoint beforeFirstDot (s : string) : string :=
  match s with
  | EmptyString => EmptyString
  | String c r => if Ascii.eqb c "." then EmptyString else String c (beforeFirstDot r)
  end.

Fixpoint hasDot (s : string) : bool :=
  match s with
  | EmptyString => false
  | String c r => Ascii.eqb c "." || hasDot r
  end.

(** The name of section [i] (counted from 1) as the specification words it. *)
Definition sectionName (original : string) (i : nat) : string :=
  beforeFirstDot original ++ "_section_" ++ toString i ++ ".png".

(** The entries the loop of [downloadAllSections] adds for the sections
    [ss], the first of them having index [index]. *)
Fixpoint archiveEntries (original : string) (index : nat) (ss : list ImageSection)
  : list (string * Raster) :=
  match ss with
  | [] => []
  | s :: rest =>
      (sectionName original (index + 1), payload (dataUrl s))
        :: archiveEntries original (S index) rest
  end.

(** The state after a split of the 801 x 600 example with A4, portrait. *)
Definition splitExample : AppState :=
  match processImage allContexts odd801x600 with
  | Some st => st
  | None => odd801x600
  end.

Definition exampleSections : list ImageSection :=
  flat_map (fun s => match s with Some s => [s] | None => [] end)
           (splitSections splitExample).

(** Its second section: the top-right one. *)
Definition exampleSecond : ImageSection :=
  {| dataUrl :=
       {| mediaType := "image/png";
          payload := {| canvasWidth := 400; canvasHeight := 300;
                        drawnFrom := {| img_width := 801; img_height := 600 |};
                        sourceRect := {| rx := lit 400.5; ry := lit 0;
                                         rw := lit 400.5; rh := lit 300 |} |} |};
     dimensions := {| width := lit 10.5; height := lit 14.85 |} |}.

(** The states after choosing the custom format and typing "abc", "0" and
    "12.5" as width. *)
Definition customChosen : AppState := setPaperFormat custom initialState.

Definition nonNumericWidth : AppState :=
  width_onChange parseFloatDecimal "abc" customChosen.

Definition zeroWidth : AppState :=
  width_onChange parseFloatDecimal "0" customChosen.

Definition positiveWidth : AppState :=
  width_onChange parseFloatDecimal "12.5" customChosen.

(** ** The remaining setters, the preview and the theme (lines 56-63, 236-246) *)

Definition setDarkMode (v : bool) (st : AppState) : AppState :=
  {| darkMode := v; sourceImage := sourceImage st; fileName := fileName st;
     fileType := fileType st; paperFormat := paperFormat st;
     orientation := orientation st; customDimensions := customDimensions st;
     splitSections := splitSections st; isProcessing := isProcessing st;
     error := error st; previewImageUrl := previewImageUrl st;
     isPreviewOpen := isPreviewOpen st |}.

Definition setPreviewImageUrl (v : option DataUrl) (st : AppState) : AppState :=
  {| darkMode := darkMode st; sourceImage := sourceImage st; fileName := fileName st;
     fileType := fileType st; paperFormat := paperFormat st;
     orientation := orientation st; customDimensions := customDimensions st;
     splitSections := splitSections st; isProcessing := isProcessing st;
     error := error st; previewImageUrl := v;
     isPreviewOpen := isPreviewOpen st |}.

Definition setIsPreviewOpen (v : bool) (st : AppState) : AppState :=
  {| darkMode := darkMode st; sourceImage := sourceImage st; fileName := fileName st;
     fileType := fileType st; paperFormat := paperFormat st;
     orientation := orientation st; customDimensions := customDimensions st;
     splitSections := splitSections st; isProcessing := isProcessing st;
     error := error st; previewImageUrl := previewImageUrl st;
     isPreviewOpen := v |}.

Definition previewSection (dataUrl : DataUrl) (st : AppState) : AppState :=
  setIsPreviewOpen true (setPreviewImageUrl (Some dataUrl) st).

Definition closePreview (st : AppState) : AppState :=
  setPreviewImageUrl None (setIsPreviewOpen false st).

(** The class list of the root element, a [DOMTokenList]: an ordered set of
    tokens.  [add] appends a token that is not there, [remove] takes every
    occurrence out. *)
Definition classList_add (token : string) (classList : list string) : list string :=
  if includes classList token then classList else List.app classList [token].

Definition classList_remove (token : string) (classList : list string) : list string :=
  filter (fun t => negb (String.eqb t token)) classList.

(** The effect of lines 57-63, run when [darkMode] has changed. *)
Definition darkModeEffect (darkMode : bool) (classList : list string) : list string :=
  if darkMode then classList_add "dark" classList
  else classList_remove "dark" classList.

(** ** Drop (lines 101-112) *)

(** [handleDrop] on the files of the drag: with a first file, a stand-in
    input holding all the files is handed to [handleFileUpload], which reads
    the first of them. *)
Definition handleDrop (files : list File) (st : AppState) : AppState * option File :=
  match hd_error files with
  | Some _ => handleFileUpload (hd_error files) st
  | None => (st, None)
  end.

(** ** What the render shows (lines 306, 341, 418, 429, 482) *)

Definition isSome {A : Type} (o : option A) : bool :=
  match o with Some _ => true | None => false end.

(** [disabled={!sourceImage || isProcessing}] of the split button. *)
Definition splitDisabled (st : AppState) : bool :=
  negb (isSome (sourceImage st)) || isProcessing st.

(** [splitSections.length > 0], the condition of line 429 under which the
    output section and its "Download All" are rendered; the rendering itself
    is [renderOutput]. *)
Definition outputShown (st : AppState) : bool :=
  (0 <? List.length (splitSections st))%nat.

(** One card of the output section (lines 444-474): the image shown, the
    number in its title, and the dimensions its size line prints. *)
Record Card : Type := { card_src : DataUrl; card_number : nat; card_size : Dimensions }.

Inductive OutputRender : Type :=
| NotRendered
| RenderThrew
| Rendered (cards : list Card).

(** [splitSections.map((section, index) => ...)] from index [index] on;
    [None] when reading [dataUrl] of a [null] entry throws. *)
Fixpoint renderCards (sections : list (option ImageSection)) (index : nat)
  : option (list Card) :=
  match sections with
  | [] => Some []
  | None :: _ => None
  | Some section :: rest =>
      match renderCards rest (S index) with
      | Some cards =>
          Some ({| card_src := dataUrl section; card_number := index + 1;
                   card_size := dimensions section |} :: cards)
      | None => None
      end
  end.

(** The output section of the render (lines 429-478). *)
Definition renderOutput (st : AppState) : OutputRender :=
  if outputShown st then
    match renderCards (splitSections st) 0 with
    | Some cards => Rendered cards
    | None => RenderThrew
    end
  else NotRendered.

(** [isPreviewOpen && previewImageUrl]: the preview modal. *)
Definition modalShown (st : AppState) : bool :=
  isPreviewOpen st && isSome (previewImageUrl st).

(** ** The component as a state machine

    One event for each handler wired in the render, and the two outcomes of
    a decode.  [dispatch] gives the state after the handler, and [None] when
    an exception leaves it.  Every event is accepted in every state, also
    where the page offers no control for it (a field that is not rendered, a
    disabled button, a decode that was never started): the states reached
    this way include every state of the page. *)

Inductive Event : Type :=
| FileChosen (file : option File)
| FilesDropped (files : list File)
| ImageLoaded (img : HTMLImageElement)
| ImageFailed
| FormatClicked (format : PaperFormat)
| PortraitClicked
| LandscapeClicked
| ToggleClicked
| WidthTyped (value : string)
| HeightTyped (value : string)
| SplitClicked (env : CanvasEnv)
| DownloadClicked (dataUrl : DataUrl) (index : nat)
| DownloadAllClicked (folderCreated : bool)
| PreviewClicked (dataUrl : DataUrl)
| CloseClicked
| DarkModeClicked.

Section Events.

Variable parseFloat : string -> number.

Definition dispatch (e : Event) (st : AppState) : option AppState :=
  match e with
  | FileChosen file => Some (fst (handleFileUpload file st))
  | FilesDropped files => Some (fst (handleDrop files st))
  | ImageLoaded img => Some (img_onload img st)
  | ImageFailed => Some (img_onerror st)
  | FormatClicked format => Some (setPaperFormat format st)
  | PortraitClicked => Some (setOrientation (fun _ => portrait) st)
  | LandscapeClicked => Some (setOrientation (fun _ => landscape) st)
  | ToggleClicked => Some (toggleOrientation st)
  | WidthTyped value => Some (width_onChange parseFloat value st)
  | HeightTyped value => Some (height_onChange parseFloat value st)
  | SplitClicked env => processImage env st
  | DownloadClicked _ _ => Some st
  | DownloadAllClicked folderCreated => Some (fst (downloadAllSections folderCreated st))
  | PreviewClicked dataUrl => Some (previewSection dataUrl st)
  | CloseClicked => Some (closePreview st)
  | DarkModeClicked => Some (setDarkMode (negb (darkMode st)) st)
  end.

(** The state after a sequence of events, the first of the list first. *)
Fixpoint run (events : list Event) (st : AppState) : option AppState :=
  match events with
  | [] => Some st
  | e :: rest =>
      match dispatch e st with
      | Some st' => run rest st'
      | None => None
      end
  end.

End Events.

(** The four entries [processImage] stores for the image [img] with output
    dimensions [out]. *)
Definition sectionsOf (env : CanvasEnv) (img : HTMLImageElement) (out : Dimensions)
  : list (option ImageSection) :=
  let halfWidth := half (ofInt (img_width img)) in
  let halfHeight := half (ofInt (img_height img)) in
  [ createSection env img out 0 (lit 0) (lit 0) halfWidth halfHeight;
    createSection env img out 1 halfWidth (lit 0) halfWidth halfHeight;
    createSection env img out 2 (lit 0) halfHeight halfWidth halfHeight;
    createSection env img out 3 halfWidth halfHeight halfWidth halfHeight ].

(** [Array.prototype.join] on strings. *)
Fixpoint join (sep : string) (pieces : list string) : string :=
  match pieces with
  | [] => ""
  | [piece] => piece
  | piece :: rest => piece ++ sep ++ join sep rest
  end.

(** ** Predicates used to state the further properties *)

(** What every state reached from [initialState] satisfies. *)
Definition Inv (st : AppState) : Prop :=
  isProcessing st = false /\
  truthy (width (customDimensions st)) = true /\
  truthy (height (customDimensions st)) = true /\
  (fileType st = "" \/ In (fileType st) validFileTypes) /\
  isPreviewOpen st = isSome (previewImageUrl st) /\
  (splitSections st = [] \/
   exists img env out,
     sourceImage st = Some img /\
     (1 <= img_width img)%Z /\ (1 <= img_height img)%Z /\
     splitSections st = sectionsOf env img out).

(** Whether the point [(px, py)] of the plane lies in a rectangle. *)
Definition inRectAt (r : Rect) (px py : Q) : bool :=
  match rx r, ry r, rw r, rh r with
  | Fin x, Fin y, Fin w, Fin h =>
      Qle_bool x px && negb (Qle_bool (x + w) px) &&
      Qle_bool y py && negb (Qle_bool (y + h) py)
  | _, _, _, _ => false
  end.

(** The number of occurrences of a character in a string. *)
Fixpoint countChar (c : ascii) (s : string) : nat :=
  match s with
  | EmptyString => O
  | String d r => if Ascii.eqb d c then S (countChar c r) else countChar c r
  end.

(** A session used in the examples: a JPEG is chosen and decodes to
    801 x 600 pixels, the custom format is chosen, "abc" and "-5" are typed
    as width and height, the image is split, the second section is previewed
    and the preview closed. *)
Definition exampleSession : list Event :=
  [ FileChosen (Some {| file_name := "photo.JPG"; file_type := "image/jpeg" |});
    ImageLoaded {| img_width := 801; img_height := 600 |};
    FormatClicked custom;
    WidthTyped "abc";
    HeightTyped "-5";
    SplitClicked allContexts;
    PreviewClicked (dataUrl exampleSecond);
    CloseClicked ].

Definition afterSession : AppState :=
  Eval vm_compute in
    match run parseFloatDecimal exampleSession initialState with
    | Some st => st
    | None => initialState
    end.

(** The state after a text file was refused over the loaded example. *)
Definition refusedState : AppState :=
  fst (handleFileUpload (Some {| file_name := "notes.txt"; file_type := "text/plain" |})
         odd801x600).

(** A TIFF that the browser accepts by type. *)
Definition scanTiff : File := {| file_name := "scan.tiff"; file_type := "image/tiff" |}.

(** * Properties *)

(** ** Numbers *)

Example parse_examples :
  parseFloatDecimal "-5" = lit (-5) /\
  parseFloatDecimal "12.5" = lit 12.5 /\
  parseFloatDecimal " 1e2cm" = lit 100 /\
  parseFloatDecimal ".5" = lit 0.5 /\
  parseFloatDecimal "5." = lit 5 /\
  parseFloatDecimal "1e-2" = lit 0.01 /\
  parseFloatDecimal "0" = lit 0 /\
  parseFloatDecimal "-0.0" = lit 0 /\
  parseFloatDecimal "" = NaN /\
  parseFloatDecimal "." = NaN /\
  parseFloatDecimal "abc" = NaN /\
  parseFloatDecimal "-Infinity" = Infinity true /\
  parseFloatDecimal "1.7976931348623157e308" = lit 1.7976931348623157e308 /\
  parseFloatDecimal "1e400" = Infinity false /\
  parseFloatDecimal "-1.8e308" = Infinity true /\
  parseFloatDecimal "1e-400" = lit 0 /\
  parseFloatDecimal "5e-324" = lit 5e-324.
Proof. repeat split; vm_compute; reflexivity. Qed.

Lemma truthy_lit_1 : truthy (lit 1) = true.
Proof. reflexivity. Qed.

(** A number is falsy exactly when it is [NaN] or a zero. *)
Lemma truthy_false_iff (x : number) :
  truthy x = false <-> x = NaN \/ exists q, x = Fin q /\ q == 0.
Proof.
  destruct x as [| s | q]; simpl.
  - split; [now left | reflexivity].
  - split; [discriminate | intros [H | (q & H & _)]; discriminate].
  - rewrite negb_false_iff, Qeq_bool_iff. split.
    + intros H. right. now exists q.
    + intros [H | (q' & H & Hq)]; [discriminate | now injection H as ->].
Qed.

Lemma or_else_truthy (x y : number) : truthy x = true -> or_else x y = x.
Proof. unfold or_else. now intros ->. Qed.

Lemma or_else_falsy (x y : number) : truthy x = false -> or_else x y = y.
Proof. unfold or_else. now intros ->. Qed.

(** Half of an even integer is an integer, half of an odd one is not. *)
Lemma half_even (n : Z) : Z.even n = true -> half (ofInt n) = ofInt (n / 2).
Proof.
  intros He. unfold half, ofInt. f_equal.
  rewrite <- (Qred_identity (inject_Z (n / 2))).
  - apply Qred_complete.
    apply Z.even_spec in He. destruct He as [k ->].
    rewrite (Z.mul_comm 2 k), Z.div_mul by lia.
    unfold Qeq, Qdiv, Qmult, Qinv, inject_Z. simpl. lia.
  - simpl. apply Z.gcd_1_r.
Qed.

Lemma half_odd (n : Z) : Z.odd n = true -> half (ofInt n) = Fin (n # 2).
Proof.
  intros Ho. unfold half, ofInt. f_equal.
  rewrite <- (Qred_identity (n # 2)).
  - apply Qred_complete. unfold Qeq, Qdiv, Qmult, Qinv, inject_Z. simpl. lia.
  - simpl. apply Z.odd_spec in Ho. destruct Ho as [k ->].
    rewrite Z.gcd_comm, Z.add_comm, Z.mul_comm, Z.gcd_add_mult_diag_r.
    reflexivity.
Qed.

(** ** The dimension resolver *)

Lemma getCurrentDimensions_custom (st : AppState) :
  paperFormat st = custom ->
  getCurrentDimensions st =
  match orientation st with
  | portrait => customDimensions st
  | landscape => swap (customDimensions st)
  end.
Proof. unfold getCurrentDimensions. now intros ->. Qed.

(** The resolver reads the format, the orientation and the custom
    dimensions, and nothing else of the state. *)
Lemma getCurrentDimensions_ext (st st' : AppState) :
  paperFormat st' = paperFormat st ->
  orientation st' = orientation st ->
  customDimensions st' = customDimensions st ->
  getCurrentDimensions st' = getCurrentDimensions st.
Proof. unfold getCurrentDimensions. now intros -> -> ->. Qed.

(** C2: for each of the four paper formats and both orientations,
    [getCurrentDimensions] returns the documented base dimensions
    (A4 = 21 x 29.7, A3 = 29.7 x 42, A2 = 42 x 59.4, custom = the stored
    custom dimensions), unchanged under portrait and with width and height
    exchanged under landscape. *)
Theorem C2_resolver_table (st : AppState) :
  getCurrentDimensions st =
  match paperFormat st, orientation st with
  | A4, portrait => {| width := lit 21; height := lit 29.7 |}
  | A4, landscape => {| width := lit 29.7; height := lit 21 |}
  | A3, portrait => {| width := lit 29.7; height := lit 42 |}
  | A3, landscape => {| width := lit 42; height := lit 29.7 |}
  | A2, portrait => {| width := lit 42; height := lit 59.4 |}
  | A2, landscape => {| width := lit 59.4; height := lit 42 |}
  | custom, portrait => customDimensions st
  | custom, landscape =>
      {| width := height (customDimensions st); height := width (customDimensions st) |}
  end.
Proof.
  unfold getCurrentDimensions.
  destruct (paperFormat st), (orientation st); reflexivity.
Qed.

(** C9: toggling the orientation twice gives back the state one started
    from, and after one toggle the resolver's width and height are those of
    before the toggle, exchanged; the paper format is untouched. *)
Theorem C9_toggle_involution (st : AppState) :
  toggleOrientation (toggleOrientation st) = st /\
  orientation (toggleOrientation st) <> orientation st /\
  paperFormat (toggleOrientation st) = paperFormat st /\
  getCurrentDimensions (toggleOrientation st) = swap (getCurrentDimensions st).
Proof.
  destruct st as [dm si fn ft pf o cd ss ip er pu po].
  unfold toggleOrientation, setOrientation, getCurrentDimensions, swap; simpl.
  repeat split.
  - now destruct o.
  - now destruct o.
  - destruct o; simpl; [reflexivity |].
    destruct pf; try reflexivity. now destruct cd.
Qed.

(** ** The partitioner *)

(** The split on a loaded image with a full-size context: the four calls of
    [createSection], in order. *)
Lemma processImage_split (env : CanvasEnv) (st : AppState) (img : HTMLImageElement) :
  sourceImage st = Some img ->
  mainContext env = true ->
  (1 <= img_width img)%Z -> (1 <= img_height img)%Z ->
  processImage env st =
  let out := getCurrentDimensions st in
  let halfWidth := half (ofInt (img_width img)) in
  let halfHeight := half (ofInt (img_height img)) in
  Some (setIsProcessing false
         (setSplitSections
            [ createSection env img out 0 (lit 0) (lit 0) halfWidth halfHeight;
              createSection env img out 1 halfWidth (lit 0) halfWidth halfHeight;
              createSection env img out 2 (lit 0) halfHeight halfWidth halfHeight;
              createSection env img out 3 halfWidth halfHeight halfWidth halfHeight ]
            (setIsProcessing true st))).
Proof.
  intros Hsrc Hctx HW HH. unfold processImage. rewrite Hsrc, Hctx. simpl negb. cbv iota.
  replace (img_width img <=? 0)%Z with false by (symmetry; apply Z.leb_gt; lia).
  replace (img_height img <=? 0)%Z with false by (symmetry; apply Z.leb_gt; lia).
  reflexivity.
Qed.

Lemma createSection_available (env : CanvasEnv) img out k x y w h :
  sectionContext env k = true ->
  createSection env img out k x y w h =
  Some {| dataUrl :=
            toDataURL "image/png"
              {| canvasWidth := toUnsignedLong w;
                 canvasHeight := toUnsignedLong h;
                 drawnFrom := img;
                 sourceRect := {| rx := x; ry := y; rw := w; rh := h |} |};
          dimensions := {| width := half (width out); height := half (height out) |} |}.
Proof. unfold createSection. now intros ->. Qed.

Lemma createSection_unavailable (env : CanvasEnv) img out k x y w h :
  sectionContext env k = false -> createSection env img out k x y w h = None.
Proof. unfold createSection. now intros ->. Qed.

(** Whatever the section contexts do, a section that was created carries
    half the output dimensions. *)
Lemma createSection_dimensions (env : CanvasEnv) img out k x y w h s :
  createSection env img out k x y w h = Some s ->
  dimensions s = {| width := half (width out); height := half (height out) |}.
Proof.
  unfold createSection. destruct (sectionContext env k); simpl; [| discriminate].
  now intros [= <-].
Qed.

(** C3: after a successful split (an image is loaded and every canvas
    context is available) the section list holds four sections, and each of
    them carries the same physical dimensions: half the width and half the
    height that the resolver returns for the current settings, whatever the
    pixel size of the image. *)
Theorem C3_sections_half_output (env : CanvasEnv) (st : AppState) (img : HTMLImageElement) :
  sourceImage st = Some img ->
  (1 <= img_width img)%Z -> (1 <= img_height img)%Z ->
  mainContext env = true ->
  (forall k, sectionContext env k = true) ->
  exists st' s1 s2 s3 s4,
    processImage env st = Some st' /\
    splitSections st' = [Some s1; Some s2; Some s3; Some s4] /\
    Forall (fun s => dimensions s =
                     {| width := half (width (getCurrentDimensions st));
                        height := half (height (getCurrentDimensions st)) |})
           [s1; s2; s3; s4].
Proof.
  intros Hsrc HW HH Hctx Hsec.
  rewrite (processImage_split env st img Hsrc Hctx HW HH). cbv zeta.
  rewrite !createSection_available by apply Hsec.
  eexists _, _, _, _, _. split; [reflexivity |]. split; [reflexivity |].
  repeat constructor.
Qed.

Example customExample_output :
  getCurrentDimensions customExample = {| width := lit 15.0; height := lit 10.0 |}.
Proof. reflexivity. Qed.

Lemma C3_sections_half_output_witness :
  exists st' s1 s2 s3 s4,
    processImage allContexts customExample = Some st' /\
    splitSections st' = [Some s1; Some s2; Some s3; Some s4] /\
    Forall (fun s => dimensions s = {| width := lit 7.5; height := lit 5.0 |})
           [s1; s2; s3; s4].
Proof.
  apply (C3_sections_half_output allContexts customExample
           {| img_width := 801; img_height := 600 |}).
  - reflexivity.
  - simpl; lia.
  - simpl; lia.
  - reflexivity.
  - reflexivity.
Defined.

(** *** Regions *)

Lemma inRect_ofInt (x y w h px py : Z) :
  inRect {| rx := ofInt x; ry := ofInt y; rw := ofInt w; rh := ofInt h |} px py =
  ((x <=? px) && (px <? x + w) && (y <=? py) && (py <? y + h))%Z.
Proof.
  unfold inRect, ofInt, inject_Z, Qle_bool, Qplus; simpl.
  rewrite !Z.mul_1_r, !(Z.ltb_antisym _ px), !(Z.ltb_antisym _ py).
  reflexivity.
Qed.

(** The regions of the specification tile the image, whatever its size:
    each pixel lies in exactly one of them, and none reaches outside. *)
Lemma specRegions_cover (W H px py : Z) :
  (0 <= px < W)%Z -> (0 <= py < H)%Z ->
  coverCount (specRegions W H) px py = 1%nat.
Proof.
  intros Hx Hy. unfold coverCount, specRegions. cbn [filter].
  rewrite !inRect_ofInt.
  assert (0 <= W / 2 <= W)%Z by (split; [apply Z.div_pos | apply Z.div_le_upper_bound]; lia).
  assert (0 <= H / 2 <= H)%Z by (split; [apply Z.div_pos | apply Z.div_le_upper_bound]; lia).
  destruct (Z.ltb_spec px (W / 2)), (Z.ltb_spec py (H / 2));
    repeat match goal with
           | |- context [(?a <=? ?b)%Z] => destruct (Z.leb_spec a b); try lia
           | |- context [(?a <? ?b)%Z] => destruct (Z.ltb_spec a b); try lia
           end; reflexivity.
Qed.

Lemma specRegions_inside (W H px py : Z) (r : Rect) :
  (0 <= W)%Z -> (0 <= H)%Z ->
  In r (specRegions W H) -> inRect r px py = true ->
  (0 <= px < W)%Z /\ (0 <= py < H)%Z.
Proof.
  intros HW HH Hin Hr.
  assert (0 <= W / 2 <= W)%Z by (split; [apply Z.div_pos | apply Z.div_le_upper_bound]; lia).
  assert (0 <= H / 2 <= H)%Z by (split; [apply Z.div_pos | apply Z.div_le_upper_bound]; lia).
  unfold specRegions in Hin. cbn [In] in Hin.
  destruct Hin as [<- | [<- | [<- | [<- | []]]]];
    rewrite inRect_ofInt in Hr;
    repeat (apply andb_prop in Hr; destruct Hr as [Hr ?]);
    repeat match goal with
           | E : (_ <=? _)%Z = true |- _ => apply Z.leb_le in E
           | E : (_ <? _)%Z = true |- _ => apply Z.ltb_lt in E
           end; lia.
Qed.

(** The rectangles [processImage] crops: all four have the exact halves of
    the image's width and height as their size. *)
Lemma processImage_regions (env : CanvasEnv) (st : AppState) (img : HTMLImageElement) :
  sourceImage st = Some img ->
  (1 <= img_width img)%Z -> (1 <= img_height img)%Z ->
  mainContext env = true ->
  (forall k, sectionContext env k = true) ->
  exists st',
    processImage env st = Some st' /\
    let halfWidth := half (ofInt (img_width img)) in
    let halfHeight := half (ofInt (img_height img)) in
    map regionOf (splitSections st') =
    map Some
      [ {| rx := lit 0; ry := lit 0; rw := halfWidth; rh := halfHeight |};
        {| rx := halfWidth; ry := lit 0; rw := halfWidth; rh := halfHeight |};
        {| rx := lit 0; ry := halfHeight; rw := halfWidth; rh := halfHeight |};
        {| rx := halfWidth; ry := halfHeight; rw := halfWidth; rh := halfHeight |} ].
Proof.
  intros Hsrc HW HH Hctx Hsec.
  rewrite (processImage_split env st img Hsrc Hctx HW HH). cbv zeta.
  rewrite !createSection_available by apply Hsec.
  eexists. split; reflexivity.
Qed.

(** On an image of even width and height the exact halves are the
    midpoints of the specification, and the remainders equal them. *)
Lemma specRegions_even (W H : Z) :
  Z.even W = true -> Z.even H = true ->
  specRegions W H =
  let halfWidth := half (ofInt W) in
  let halfHeight := half (ofInt H) in
  [ {| rx := lit 0; ry := lit 0; rw := halfWidth; rh := halfHeight |};
    {| rx := halfWidth; ry := lit 0; rw := halfWidth; rh := halfHeight |};
    {| rx := lit 0; ry := halfHeight; rw := halfWidth; rh := halfHeight |};
    {| rx := halfWidth; ry := halfHeight; rw := halfWidth; rh := halfHeight |} ].
Proof.
  intros HW HH. cbv zeta. rewrite (half_even W HW), (half_even H HH).
  unfold specRegions.
  replace (W - W / 2)%Z with (W / 2)%Z
    by (apply Z.even_spec in HW; destruct HW as [k ->];
        rewrite (Z.mul_comm 2 k), Z.div_mul; lia).
  replace (H - H / 2)%Z with (H / 2)%Z
    by (apply Z.even_spec in HH; destruct HH as [k ->];
        rewrite (Z.mul_comm 2 k), Z.div_mul; lia).
  reflexivity.
Qed.

(** C1 (as the code has it): on a loaded image of [W] by [H] pixels, both at
    least 1, a split with every context available stores exactly four
    sections, in the order top-left, top-right, bottom-left, bottom-right,
    cropped from [(0, 0, W/2, H/2)], [(W/2, 0, W/2, H/2)],
    [(0, H/2, W/2, H/2)] and [(W/2, H/2, W/2, H/2)], where [W/2] and [H/2]
    are the exact halves, not rounded.  When [W] and [H] are even these are
    the regions of the specification (with [midX = floor (W/2)] and
    [midY = floor (H/2)]), and they tile the image: every pixel lies in
    exactly one region and no region reaches outside the image. *)
Theorem C1_regions_exact_halves (env : CanvasEnv) (st : AppState) (W H : Z) :
  sourceImage st = Some {| img_width := W; img_height := H |} ->
  (1 <= W)%Z -> (1 <= H)%Z ->
  mainContext env = true ->
  (forall k, sectionContext env k = true) ->
  exists st',
    processImage env st = Some st' /\
    List.length (splitSections st') = 4%nat /\
    (let halfWidth := half (ofInt W) in
     let halfHeight := half (ofInt H) in
     map regionOf (splitSections st') =
     map Some
       [ {| rx := lit 0; ry := lit 0; rw := halfWidth; rh := halfHeight |};
         {| rx := halfWidth; ry := lit 0; rw := halfWidth; rh := halfHeight |};
         {| rx := lit 0; ry := halfHeight; rw := halfWidth; rh := halfHeight |};
         {| rx := halfWidth; ry := halfHeight; rw := halfWidth; rh := halfHeight |} ]) /\
    (Z.even W = true -> Z.even H = true ->
     map regionOf (splitSections st') = map Some (specRegions W H) /\
     (forall px py, (0 <= px < W)%Z -> (0 <= py < H)%Z ->
                    coverCount (specRegions W H) px py = 1%nat) /\
     (forall r px py, In r (specRegions W H) -> inRect r px py = true ->
                      (0 <= px < W)%Z /\ (0 <= py < H)%Z)).
Proof.
  intros Hsrc HW HH Hctx Hsec.
  destruct (processImage_regions env st _ Hsrc HW HH Hctx Hsec) as (st' & Hrun & Hreg).
  cbn [img_width img_height] in Hreg. cbv zeta in Hreg.
  exists st'. split; [exact Hrun |]. split; [| split].
  - rewrite <- (length_map regionOf), Hreg. reflexivity.
  - exact Hreg.
  - intros EW EH. split; [| split].
    + rewrite Hreg, (specRegions_even W H EW EH). reflexivity.
    + intros px py. apply specRegions_cover.
    + intros r px py. apply specRegions_inside; lia.
Qed.

(** The example of the specification with even sizes, 800 x 600. *)
Lemma C1_regions_exact_halves_witness :
  exists st',
    processImage allContexts (loaded "photo.JPG" "image/jpeg" 800 600 initialState)
    = Some st' /\
    map regionOf (splitSections st') =
    map Some
      [ {| rx := ofInt 0; ry := ofInt 0; rw := ofInt 400; rh := ofInt 300 |};
        {| rx := ofInt 400; ry := ofInt 0; rw := ofInt 400; rh := ofInt 300 |};
        {| rx := ofInt 0; ry := ofInt 300; rw := ofInt 400; rh := ofInt 300 |};
        {| rx := ofInt 400; ry := ofInt 300; rw := ofInt 400; rh := ofInt 300 |} ] /\
    (forall px py, (0 <= px < 800)%Z -> (0 <= py < 600)%Z ->
                   coverCount (specRegions 800 600) px py = 1%nat).
Proof.
  destruct (C1_regions_exact_halves allContexts
              (loaded "photo.JPG" "image/jpeg" 800 600 initialState) 800 600)
    as (st' & Hrun & _ & _ & Heven).
  - reflexivity.
  - lia.
  - lia.
  - reflexivity.
  - reflexivity.
  - destruct (Heven eq_refl eq_refl) as (Hreg & Hcover & _).
    exists st'. split; [exact Hrun |]. split; [exact Hreg | exact Hcover].
Defined.

(** On the 801 x 600 image the four rectangles cropped are 400.5 wide and
    the section canvases 400 pixels wide; the specification's regions are
    400 and 401 wide.  The second section is cropped from [x = 400.5], not
    from [x = 400]. *)
Lemma C1_counterexample_801x600 :
  option_map (fun st' => map regionOf (splitSections st'))
             (processImage allContexts odd801x600)
  = Some (map Some
      [ {| rx := lit 0; ry := lit 0; rw := lit 400.5; rh := lit 300 |};
        {| rx := lit 400.5; ry := lit 0; rw := lit 400.5; rh := lit 300 |};
        {| rx := lit 0; ry := lit 300; rw := lit 400.5; rh := lit 300 |};
        {| rx := lit 400.5; ry := lit 300; rw := lit 400.5; rh := lit 300 |} ]) /\
  option_map (fun st' => map (option_map (fun s => canvasWidth (payload (dataUrl s))))
                             (splitSections st'))
             (processImage allContexts odd801x600)
  = Some [Some 400%Z; Some 400%Z; Some 400%Z; Some 400%Z] /\
  specRegions 801 600 =
      [ {| rx := lit 0; ry := lit 0; rw := lit 400; rh := lit 300 |};
        {| rx := lit 400; ry := lit 0; rw := lit 401; rh := lit 300 |};
        {| rx := lit 0; ry := lit 300; rw := lit 400; rh := lit 300 |};
        {| rx := lit 400; ry := lit 300; rw := lit 401; rh := lit 300 |} ] /\
  option_map (fun st' => map regionOf (splitSections st'))
             (processImage allContexts odd801x600)
  <> Some (map Some (specRegions 801 600)).
Proof.
  split; [reflexivity |]. split; [reflexivity |]. split; [reflexivity |].
  intros E. vm_compute in E. discriminate E.
Qed.

(** *** Failure paths *)

(** A section canvas without a context: the split still stores four
    entries, the one of that canvas is [null], and the error message is the
    one from before. *)
Lemma processImage_null_section (env : CanvasEnv) (st : AppState)
    (img : HTMLImageElement) (k : nat) :
  sourceImage st = Some img ->
  (1 <= img_width img)%Z -> (1 <= img_height img)%Z ->
  mainContext env = true ->
  (k < 4)%nat -> sectionContext env k = false ->
  exists st',
    processImage env st = Some st' /\
    List.length (splitSections st') = 4%nat /\
    nth_error (splitSections st') k = Some None /\
    error st' = error st.
Proof.
  intros Hsrc HW HH Hctx Hk Hsec.
  rewrite (processImage_split env st img Hsrc Hctx HW HH). cbv zeta.
  eexists. split; [reflexivity |]. split; [reflexivity |]. split; [| reflexivity].
  destruct k as [| [| [| [| k]]]]; try lia; simpl;
    now rewrite createSection_unavailable.
Qed.

(** C5 (as the code has it): with no source image the split is a silent
    no-op, the whole state, error message included, is as before; with a
    source image but no context for the full-size canvas the split reports
    "Canvas not supported in your browser.", leaves the stored sections
    unchanged and is no longer processing. *)
Theorem C5_split_failure_paths (env : CanvasEnv) (st : AppState) :
  (sourceImage st = None -> processImage env st = Some st) /\
  (forall img, sourceImage st = Some img -> mainContext env = false ->
     exists st',
       processImage env st = Some st' /\
       error st' = Some "Canvas not supported in your browser." /\
       splitSections st' = splitSections st /\
       isProcessing st' = false /\
       sourceImage st' = sourceImage st /\
       fileName st' = fileName st).
Proof.
  split.
  - intros Hsrc. unfold processImage. now rewrite Hsrc.
  - intros img Hsrc Hctx. unfold processImage. rewrite Hsrc, Hctx. simpl.
    eexists. split; [reflexivity |]. simpl. repeat split. exact Hsrc.
Qed.

Lemma C5_split_failure_paths_witness :
  processImage noContexts initialState = Some initialState /\
  exists st',
    processImage noContexts odd801x600 = Some st' /\
    error st' = Some "Canvas not supported in your browser." /\
    splitSections st' = [] /\
    isProcessing st' = false /\
    sourceImage st' = Some {| img_width := 801; img_height := 600 |} /\
    fileName st' = "photo.JPG".
Proof.
  destruct (C5_split_failure_paths noContexts initialState) as [Habsent _].
  destruct (C5_split_failure_paths noContexts odd801x600) as [_ Hmain].
  split.
  - apply Habsent. reflexivity.
  - apply (Hmain {| img_width := 801; img_height := 600 |}); reflexivity.
Defined.

(** Where the code departs from C5.  With no source image no error is
    reported.  With a 2 x 2 image loaded and no context for the second
    section canvas, the stored list changes from empty to four entries of
    which the second is [null], and no error is reported. *)
Lemma C5_counterexample :
  (processImage allContexts initialState = Some initialState /\
   error initialState = None) /\
  (let st := loaded "photo.JPG" "image/jpeg" 2 2 initialState in
   splitSections st = [] /\
   option_map error (processImage secondSectionBroken st) = Some None /\
   option_map
     (fun st' => map (fun s => match s with Some _ => true | None => false end)
                     (splitSections st'))
     (processImage secondSectionBroken st)
   = Some [true; false; true; true]).
Proof. repeat split. Qed.

(** ** Upload *)

Lemma includes_In (l : list string) (s : string) : includes l s = true <-> In s l.
Proof.
  unfold includes. rewrite existsb_exists. split.
  - intros (x & Hin & Heq). apply String.eqb_eq in Heq. now subst.
  - intros Hin. exists s. split; [exact Hin | apply String.eqb_refl].
Qed.

(** C6: a file whose type is none of image/jpeg, image/png, image/tiff is
    answered by the message "Invalid file type. Please upload JPG, PNG, or
    TIFF.", no decode is started, and the source image, file name, file
    type and sections (indeed everything but the message) stay as they
    were. *)
Theorem C6_invalid_type_rejected (f : File) (st : AppState) :
  ~ In (file_type f) ["image/jpeg"; "image/png"; "image/tiff"] ->
  handleFileUpload (Some f) st =
    (setError (Some "Invalid file type. Please upload JPG, PNG, or TIFF.") st, None) /\
  let st' := fst (handleFileUpload (Some f) st) in
  error st' = Some "Invalid file type. Please upload JPG, PNG, or TIFF." /\
  sourceImage st' = sourceImage st /\
  fileName st' = fileName st /\
  fileType st' = fileType st /\
  splitSections st' = splitSections st.
Proof.
  intros Hnot.
  assert (E : includes validFileTypes (file_type f) = false).
  { destruct (includes validFileTypes (file_type f)) eqn:E; [| reflexivity].
    apply includes_In in E. contradiction. }
  unfold handleFileUpload. rewrite E. simpl. repeat split.
Qed.

Lemma C6_invalid_type_rejected_witness :
  let f := {| file_name := "notes.txt"; file_type := "text/plain" |} in
  handleFileUpload (Some f) odd801x600 =
    (setError (Some "Invalid file type. Please upload JPG, PNG, or TIFF.") odd801x600, None) /\
  let st' := fst (handleFileUpload (Some f) odd801x600) in
  error st' = Some "Invalid file type. Please upload JPG, PNG, or TIFF." /\
  sourceImage st' = Some {| img_width := 801; img_height := 600 |} /\
  fileName st' = "photo.JPG" /\
  fileType st' = "image/jpeg" /\
  splitSections st' = [].
Proof.
  apply (C6_invalid_type_rejected
           {| file_name := "notes.txt"; file_type := "text/plain" |} odd801x600).
  simpl. intros [H | [H | [H | []]]]; discriminate H.
Defined.

(** ** Export names *)

Lemma split_hd (s : string) : hd "" (split "." s) = beforeFirstDot s.
Proof.
  induction s as [| c r IH]; simpl; [reflexivity |].
  destruct (Ascii.eqb c "."); [reflexivity |].
  rewrite <- IH. destruct (split "." r); reflexivity.
Qed.

Lemma beforeFirstDot_app (base rest : string) :
  hasDot base = false -> beforeFirstDot (base ++ "." ++ rest) = base.
Proof.
  induction base as [| c r IH]; simpl; [reflexivity |].
  intros H. apply orb_false_elim in H. destruct H as [Hc Hr].
  rewrite Hc. f_equal. now apply IH.
Qed.

Lemma beforeFirstDot_noDot (s : string) : hasDot s = false -> beforeFirstDot s = s.
Proof.
  induction s as [| c r IH]; simpl; [reflexivity |].
  intros H. apply orb_false_elim in H. destruct H as [Hc Hr].
  rewrite Hc. f_equal. now apply IH.
Qed.

Lemma addSections_all (original : string) (ss : list ImageSection) :
  forall index acc,
    addSections original (map Some ss) index acc =
    Some (List.app acc (archiveEntries original index ss)).
Proof.
  induction ss as [| s rest IH]; intros index acc; simpl.
  - now rewrite app_nil_r.
  - rewrite IH, <- app_assoc, split_hd. reflexivity.
Qed.

Lemma archiveEntries_nth (original : string) (ss : list ImageSection) :
  forall index j s,
    nth_error ss j = Some s ->
    nth_error (archiveEntries original index ss) j =
    Some (sectionName original (index + j + 1), payload (dataUrl s)).
Proof.
  induction ss as [| s0 rest IH]; intros index j s Hj.
  - destruct j; discriminate Hj.
  - destruct j as [| j]; simpl in *.
    + injection Hj as ->. now rewrite Nat.add_0_r.
    + rewrite (IH (S index) j s Hj). do 3 f_equal. lia.
Qed.

(** A [null] among the sections makes the loop throw. *)
Lemma addSections_null (original : string) (ss : list (option ImageSection)) :
  forall index acc, In None ss -> addSections original ss index acc = None.
Proof.
  induction ss as [| [s |] rest IH]; intros index acc Hin; simpl.
  - destruct Hin.
  - apply IH. destruct Hin as [H | H]; [discriminate H | exact H].
  - reflexivity.
Qed.

(** C7: for every original file name and every index [i] from 1 to 4, the
    name under which section [i] is downloaded, and the name of the [i]-th
    entry of the archive, is the original name cut before its first dot,
    followed by "_section_", [i] and ".png". *)
Theorem C7_export_names (st : AppState) (i : nat) (u : DataUrl) (ss : list ImageSection)
    (s : ImageSection) :
  (1 <= i <= 4)%nat ->
  splitSections st = map Some ss ->
  nth_error ss (i - 1) = Some s ->
  download (downloadSection st u (i - 1)) = sectionName (fileName st) i /\
  (exists files,
     downloadAllSections true st =
       (st, Saved {| folder := "split_images"; entries := files;
                     savedAs := beforeFirstDot (fileName st) ++ "_split_images.zip" |}) /\
     nth_error files (i - 1) = Some (sectionName (fileName st) i, payload (dataUrl s))) /\
  (forall base rest, hasDot base = false -> fileName st = base ++ "." ++ rest ->
     sectionName (fileName st) i = base ++ "_section_" ++ toString i ++ ".png") /\
  (hasDot (fileName st) = false ->
     sectionName (fileName st) i = fileName st ++ "_section_" ++ toString i ++ ".png").
Proof.
  intros Hi Hss Hnth.
  assert (Ei : (i - 1 + 1 = i)%nat) by lia.
  split; [| split; [| split]].
  - unfold downloadSection, sectionName; simpl. now rewrite split_hd, Ei.
  - exists (archiveEntries (fileName st) 0 ss). split.
    + unfold downloadAllSections. rewrite Hss, length_map.
      destruct ss as [| s0 rest]; [destruct (i - 1)%nat; discriminate Hnth |].
      cbn [List.length Nat.eqb negb].
      rewrite (addSections_all (fileName st) (s0 :: rest) 0 []), split_hd.
      reflexivity.
    + rewrite (archiveEntries_nth _ _ 0 (i - 1) s Hnth). simpl. now rewrite Ei.
  - intros base rest Hdot Hname. unfold sectionName.
    now rewrite Hname, beforeFirstDot_app.
  - intros Hdot. unfold sectionName. now rewrite beforeFirstDot_noDot.
Qed.

Lemma C7_export_names_witness :
  download (downloadSection splitExample (dataUrl exampleSecond) 1) = "photo_section_2.png" /\
  exists files,
    downloadAllSections true splitExample =
      (splitExample, Saved {| folder := "split_images"; entries := files;
                              savedAs := "photo_split_images.zip" |}) /\
    nth_error files 1 = Some ("photo_section_2.png", payload (dataUrl exampleSecond)).
Proof.
  destruct (C7_export_names splitExample 2 (dataUrl exampleSecond) exampleSections
              exampleSecond)
    as (Hone & (files & Hall & Hentry) & _).
  - lia.
  - reflexivity.
  - reflexivity.
  - split; [exact Hone |]. exists files. split; [exact Hall | exact Hentry].
Defined.

(** C8: with no computed sections the archive export does nothing: no
    archive is produced and the state is the one it started from, whether or
    not a folder could have been created. *)
Theorem C8_empty_export_no_action (folderCreated : bool) (st : AppState) :
  splitSections st = [] ->
  downloadAllSections folderCreated st = (st, NoAction).
Proof. intros H. unfold downloadAllSections. now rewrite H. Qed.

Lemma C8_empty_export_no_action_witness :
  downloadAllSections true odd801x600 = (odd801x600, NoAction).
Proof. apply (C8_empty_export_no_action true odd801x600). reflexivity. Defined.

(** ** Custom dimension fields *)

(** C10: whatever string is entered in the width (height) field, a value is
    stored and nothing is rejected: the stored width (height) is
    [parseFloat] of the string when that is a number other than zero,
    negative numbers included, and 1 when it is [NaN] or zero; the other
    dimension and the error message are untouched. *)
Theorem C10_field_coercion (parseFloat : string -> number) (value : string)
    (st : AppState) :
  let x := parseFloat value in
  let w := width (customDimensions (width_onChange parseFloat value st)) in
  let h := height (customDimensions (height_onChange parseFloat value st)) in
  (x <> NaN -> (forall q, x = Fin q -> ~ q == 0) -> w = x /\ h = x) /\
  (x = NaN \/ (exists q, x = Fin q /\ q == 0) -> w = lit 1 /\ h = lit 1) /\
  (forall q, x = Fin q -> q < 0 -> w = Fin q /\ h = Fin q) /\
  height (customDimensions (width_onChange parseFloat value st))
    = height (customDimensions st) /\
  width (customDimensions (height_onChange parseFloat value st))
    = width (customDimensions st) /\
  error (width_onChange parseFloat value st) = error st /\
  error (height_onChange parseFloat value st) = error st.
Proof.
  cbv zeta. unfold width_onChange, height_onChange, setCustomDimensions; simpl.
  assert (Hnz : parseFloat value <> NaN ->
                (forall q, parseFloat value = Fin q -> ~ q == 0) ->
                truthy (parseFloat value) = true).
  { intros Hn Hz. destruct (truthy (parseFloat value)) eqn:E; [reflexivity |].
    apply truthy_false_iff in E. destruct E as [E | (q & E & Hq)].
    - contradiction.
    - exfalso. exact (Hz q E Hq). }
  split; [| split; [| split]].
  - intros Hn Hz. now rewrite or_else_truthy by auto.
  - intros H. apply truthy_false_iff in H. now rewrite or_else_falsy.
  - intros q Hx Hq. rewrite or_else_truthy, Hx; [now split |].
    apply Hnz; [now rewrite Hx |].
    intros q' E Hq'. rewrite Hx in E. injection E as <-.
    rewrite Hq' in Hq. exact (Qlt_irrefl 0 Hq).
  - repeat split.
Qed.

Lemma C10_field_coercion_witness :
  width (customDimensions (width_onChange parseFloatDecimal "-5" initialState)) = lit (-5) /\
  height (customDimensions (height_onChange parseFloatDecimal "-5" initialState)) = lit (-5) /\
  width (customDimensions (width_onChange parseFloatDecimal "abc" initialState)) = lit 1 /\
  height (customDimensions (height_onChange parseFloatDecimal "0" initialState)) = lit 1.
Proof.
  destruct (C10_field_coercion parseFloatDecimal "-5" initialState)
    as (_ & _ & Hneg & _).
  destruct (C10_field_coercion parseFloatDecimal "abc" initialState)
    as (_ & Hnan & _).
  destruct (C10_field_coercion parseFloatDecimal "0" initialState)
    as (_ & Hzero & _).
  destruct (Hneg (-5) eq_refl eq_refl) as [Hw Hh].
  destruct (Hnan (or_introl eq_refl)) as [Hw1 _].
  destruct (Hzero (or_intror (ex_intro _ 0 (conj eq_refl (Qeq_refl 0))))) as [_ Hh1].
  repeat split; assumption.
Defined.

Lemma positiveNumber_truthy (x : number) : positiveNumber x = true -> truthy x = true.
Proof.
  destruct x as [| s | q]; simpl; [discriminate | reflexivity |].
  rewrite !negb_true_iff. intros Hle.
  destruct (Qeq_bool q 0) eqn:E; [| reflexivity].
  apply Qeq_bool_iff in E.
  assert (H : Qle_bool q 0 = true) by (apply Qle_bool_iff; rewrite E; apply Qle_refl).
  rewrite H in Hle. discriminate Hle.
Qed.

(** C4 (as the code has it): under the custom format the resolver always
    returns, with no validation and no error message: its result is the
    stored custom width and height, exchanged under landscape.  Input that
    is not a number, or is zero, never reaches it: the field handlers store
    1 in its place and set no error, and the resolver then returns that 1.
    Positive input is stored as it is typed, and for positive dimensions the
    resolver returns what the specification documents. *)
Theorem C4_custom_never_rejected (parseFloat : string -> number) (value : string)
    (st : AppState) :
  paperFormat st = custom ->
  let x := parseFloat value in
  let other := customDimensions st in
  let afterWidth := width_onChange parseFloat value st in
  let afterHeight := height_onChange parseFloat value st in
  getCurrentDimensions st =
    match orientation st with
    | portrait => customDimensions st
    | landscape => swap (customDimensions st)
    end /\
  (x = NaN \/ (exists q, x = Fin q /\ q == 0) ->
   customDimensions afterWidth = {| width := lit 1; height := height other |} /\
   customDimensions afterHeight = {| width := width other; height := lit 1 |} /\
   getCurrentDimensions afterWidth =
     match orientation st with
     | portrait => {| width := lit 1; height := height other |}
     | landscape => {| width := height other; height := lit 1 |}
     end /\
   getCurrentDimensions afterHeight =
     match orientation st with
     | portrait => {| width := width other; height := lit 1 |}
     | landscape => {| width := lit 1; height := width other |}
     end) /\
  (positiveNumber x = true ->
   customDimensions afterWidth = {| width := x; height := height other |} /\
   customDimensions afterHeight = {| width := width other; height := x |} /\
   (positiveNumber (height other) = true ->
    specResolver custom (orientation st) {| width := x; height := height other |}
    = Some (getCurrentDimensions afterWidth)) /\
   (positiveNumber (width other) = true ->
    specResolver custom (orientation st) {| width := width other; height := x |}
    = Some (getCurrentDimensions afterHeight))) /\
  truthy (width (customDimensions afterWidth)) = true /\
  truthy (height (customDimensions afterHeight)) = true /\
  error afterWidth = error st /\
  error afterHeight = error st /\
  (positiveNumber (width other) && positiveNumber (height other) = true ->
   specResolver custom (orientation st) other = Some (getCurrentDimensions st)).
Proof.
  intros Hfmt. cbv zeta.
  split; [now apply getCurrentDimensions_custom |].
  unfold getCurrentDimensions, width_onChange, height_onChange, setCustomDimensions.
  cbn [customDimensions paperFormat orientation error width height].
  rewrite Hfmt.
  split; [| split; [| split; [| split; [| split; [| split]]]]].
  - intros Hx. apply truthy_false_iff in Hx. rewrite (or_else_falsy _ _ Hx).
    destruct (orientation st); repeat split.
  - intros Hx. rewrite (or_else_truthy _ _ (positiveNumber_truthy _ Hx)).
    split; [reflexivity |]. split; [reflexivity |].
    unfold specResolver, specBase. cbn [width height]. rewrite Hx.
    split; intros Hother; rewrite Hother; cbn [andb]; destruct (orientation st);
      reflexivity.
  - unfold or_else. destruct (truthy (parseFloat value)) eqn:E; [exact E | reflexivity].
  - unfold or_else. destruct (truthy (parseFloat value)) eqn:E; [exact E | reflexivity].
  - reflexivity.
  - reflexivity.
  - intros Hpos. unfold specResolver, specBase. rewrite Hpos.
    destruct (orientation st); [reflexivity |]. now destruct (customDimensions st).
Qed.

Lemma C4_custom_never_rejected_witness :
  customDimensions nonNumericWidth = {| width := lit 1; height := lit 20 |} /\
  getCurrentDimensions nonNumericWidth = {| width := lit 1; height := lit 20 |} /\
  error nonNumericWidth = None /\
  customDimensions positiveWidth = {| width := lit 12.5; height := lit 20 |} /\
  specResolver custom portrait {| width := lit 12.5; height := lit 20 |}
  = Some (getCurrentDimensions positiveWidth).
Proof.
  destruct (C4_custom_never_rejected parseFloatDecimal "abc" customChosen eq_refl)
    as (_ & Hnan & _ & _ & _ & Herr & _).
  destruct (C4_custom_never_rejected parseFloatDecimal "12.5" customChosen eq_refl)
    as (_ & _ & Hpos & _).
  destruct (Hnan (or_introl eq_refl)) as (Hstored & _ & Hres & _).
  destruct (Hpos eq_refl) as (Hstored' & _ & Hspec & _).
  split; [exact Hstored |]. split; [exact Hres |]. split; [exact Herr |].
  split; [exact Hstored' | exact (Hspec eq_refl)].
Defined.

(** Where the code departs from C4: with the custom format, "abc" (not a
    number) or "0" (not positive) typed as width is a validation error for
    the specification's resolver, while the page stores 1, sets no error
    message, and [getCurrentDimensions] returns 1 x 20. *)
Lemma C4_counterexample :
  (parseFloatDecimal "abc" = NaN /\
   specResolver custom portrait {| width := parseFloatDecimal "abc"; height := lit 20 |}
   = None /\
   getCurrentDimensions nonNumericWidth = {| width := lit 1; height := lit 20 |} /\
   error nonNumericWidth = None) /\
  (parseFloatDecimal "0" = lit 0 /\
   specResolver custom portrait {| width := parseFloatDecimal "0"; height := lit 20 |}
   = None /\
   getCurrentDimensions zeroWidth = {| width := lit 1; height := lit 20 |} /\
   error zeroWidth = None).
Proof. repeat split. Qed.

(** * Further properties of the component *)

(** ** The invariant of the reachable states *)

Lemma Inv_initial : Inv initialState.
Proof.
  unfold Inv; simpl. repeat split; auto.
Qed.

Lemma processImage_cases (env : CanvasEnv) (st st' : AppState) :
  processImage env st = Some st' ->
  (sourceImage st = None /\ st' = st) \/
  (exists img, sourceImage st = Some img /\ mainContext env = false /\
     st' = setIsProcessing false
             (setError (Some "Canvas not supported in your browser.")
                (setIsProcessing true st))) \/
  (exists img, sourceImage st = Some img /\ mainContext env = true /\
     (1 <= img_width img)%Z /\ (1 <= img_height img)%Z /\
     st' = setIsProcessing false
             (setSplitSections (sectionsOf env img (getCurrentDimensions st))
                (setIsProcessing true st))).
Proof.
  unfold processImage. destruct (sourceImage st) as [img |] eqn:Hsrc.
  - destruct (mainContext env) eqn:Hctx; simpl.
    + destruct (img_width img <=? 0)%Z eqn:HW; [discriminate |].
      destruct (img_height img <=? 0)%Z eqn:HH; [discriminate |]. simpl.
      intros [= <-]. right; right. exists img.
      apply Z.leb_gt in HW, HH. repeat split; try lia; reflexivity.
    + intros [= <-]. right; left. exists img. repeat split; reflexivity.
  - intros [= <-]. now left.
Qed.

Lemma handleFileUpload_rejected (f : File) (st : AppState) :
  includes validFileTypes (file_type f) = false ->
  handleFileUpload (Some f) st =
  (setError (Some "Invalid file type. Please upload JPG, PNG, or TIFF.") st, None).
Proof. unfold handleFileUpload. now intros ->. Qed.

Lemma handleFileUpload_accepted (f : File) (st : AppState) :
  includes validFileTypes (file_type f) = true ->
  handleFileUpload (Some f) st =
  (setFileType (file_type f) (setFileName (file_name f) (setError None st)), Some f).
Proof. unfold handleFileUpload. now intros ->. Qed.

Lemma handleDrop_first (files : list File) (st : AppState) :
  handleDrop files st = handleFileUpload (hd_error files) st.
Proof. unfold handleDrop. now destruct (hd_error files). Qed.

Lemma Inv_upload (file : option File) (st : AppState) :
  Inv st -> Inv (fst (handleFileUpload file st)).
Proof.
  intros HI. destruct file as [f |]; [| exact HI].
  destruct (includes validFileTypes (file_type f)) eqn:E.
  - rewrite handleFileUpload_accepted by exact E.
    apply includes_In in E.
    destruct HI as (H1 & H2 & H3 & H4 & H5 & H6). unfold Inv.
    cbn [fst setFileType setFileName setError isProcessing customDimensions
         fileType isPreviewOpen previewImageUrl splitSections sourceImage].
    repeat split; auto.
  - rewrite handleFileUpload_rejected by exact E. exact HI.
Qed.

Lemma Inv_dispatch (parseFloat : string -> number) (e : Event) (st st' : AppState) :
  Inv st -> dispatch parseFloat e st = Some st' -> Inv st'.
Proof.
  intros HI He. destruct e; simpl in He;
    try (injection He as <-).
  - now apply Inv_upload.
  - rewrite handleDrop_first. now apply Inv_upload.
  - destruct HI as (H1 & H2 & H3 & H4 & H5 & H6). unfold Inv; simpl.
    repeat split; auto.
  - exact HI.
  - exact HI.
  - exact HI.
  - exact HI.
  - exact HI.
  - destruct HI as (H1 & H2 & H3 & H4 & H5 & H6). unfold Inv; simpl.
    repeat split; auto. unfold or_else.
    destruct (truthy (parseFloat value)) eqn:E; [exact E | reflexivity].
  - destruct HI as (H1 & H2 & H3 & H4 & H5 & H6). unfold Inv; simpl.
    repeat split; auto. unfold or_else.
    destruct (truthy (parseFloat value)) eqn:E; [exact E | reflexivity].
  - destruct HI as (H1 & H2 & H3 & H4 & H5 & H6).
    destruct (processImage_cases env st st' He)
      as [[_ ->] | [(img & Hsrc & _ & ->) | (img & Hsrc & _ & HW & HH & ->)]];
      unfold Inv; simpl; repeat split; auto.
    right. exists img, env, (getCurrentDimensions st). repeat split; auto.
  - exact HI.
  - unfold downloadAllSections.
    destruct (List.length (splitSections st) =? 0)%nat; [exact HI |].
    destruct (negb folderCreated); [exact HI |].
    destruct (addSections _ _ _ _); exact HI.
  - destruct HI as (H1 & H2 & H3 & H4 & H5 & H6). unfold Inv; simpl.
    repeat split; auto.
  - destruct HI as (H1 & H2 & H3 & H4 & H5 & H6). unfold Inv; simpl.
    repeat split; auto.
  - exact HI.
Qed.

Lemma Inv_run (parseFloat : string -> number) (events : list Event) :
  forall st st', Inv st -> run parseFloat events st = Some st' -> Inv st'.
Proof.
  induction events as [| e rest IH]; intros st st' HI Hrun; simpl in Hrun.
  - now injection Hrun as <-.
  - destruct (dispatch parseFloat e st) as [st1 |] eqn:He; [| discriminate].
    exact (IH st1 st' (Inv_dispatch parseFloat e st st1 HI He) Hrun).
Qed.

Lemma exampleSession_runs :
  run parseFloatDecimal exampleSession initialState = Some afterSession.
Proof. vm_compute. reflexivity. Qed.

(** X1: in every state reached from the initial one, [isProcessing] is off,
    so the split button is disabled exactly when no image is loaded. *)
Theorem X1_split_button (parseFloat : string -> number) (events : list Event)
    (st : AppState) :
  run parseFloat events initialState = Some st ->
  isProcessing st = false /\
  splitDisabled st = negb (isSome (sourceImage st)).
Proof.
  intros Hrun.
  destruct (Inv_run parseFloat events _ _ Inv_initial Hrun) as (H1 & _).
  split; [exact H1 |]. unfold splitDisabled. rewrite H1. apply orb_false_r.
Qed.

Lemma X1_split_button_witness :
  isProcessing afterSession = false /\ splitDisabled afterSession = false.
Proof.
  apply (X1_split_button parseFloatDecimal exampleSession afterSession).
  vm_compute. reflexivity.
Defined.

(** X2: in every reachable state the stored custom dimensions and the
    dimensions the resolver returns are numbers other than zero: whatever was
    typed, neither [NaN] nor 0 is ever resolved. *)
Theorem X2_dimensions_never_falsy (parseFloat : string -> number)
    (events : list Event) (st : AppState) :
  run parseFloat events initialState = Some st ->
  truthy (width (customDimensions st)) = true /\
  truthy (height (customDimensions st)) = true /\
  truthy (width (getCurrentDimensions st)) = true /\
  truthy (height (getCurrentDimensions st)) = true.
Proof.
  intros Hrun.
  destruct (Inv_run parseFloat events _ _ Inv_initial Hrun) as (_ & Hw & Hh & _).
  split; [exact Hw |]. split; [exact Hh |].
  unfold getCurrentDimensions.
  destruct (paperFormat st), (orientation st); simpl; auto.
Qed.

Lemma X2_dimensions_never_falsy_witness :
  customDimensions afterSession = {| width := lit 1; height := lit (-5) |} /\
  truthy (width (getCurrentDimensions afterSession)) = true /\
  truthy (height (getCurrentDimensions afterSession)) = true.
Proof.
  destruct (X2_dimensions_never_falsy parseFloatDecimal exampleSession afterSession)
    as (_ & _ & Hw & Hh).
  - vm_compute. reflexivity.
  - split; [reflexivity |]. split; [exact Hw | exact Hh].
Defined.

(** X3: in every reachable state the stored file type is empty (no file was
    accepted yet) or one of image/jpeg, image/png, image/tiff. *)
Theorem X3_file_type_accepted (parseFloat : string -> number) (events : list Event)
    (st : AppState) :
  run parseFloat events initialState = Some st ->
  fileType st = "" \/ In (fileType st) ["image/jpeg"; "image/png"; "image/tiff"].
Proof.
  intros Hrun.
  now destruct (Inv_run parseFloat events _ _ Inv_initial Hrun) as (_ & _ & _ & H & _).
Qed.

Lemma X3_file_type_accepted_witness :
  fileType afterSession = "" \/
  In (fileType afterSession) ["image/jpeg"; "image/png"; "image/tiff"].
Proof.
  apply (X3_file_type_accepted parseFloatDecimal exampleSession afterSession).
  vm_compute. reflexivity.
Defined.

(** X4: in every reachable state the preview flag is on exactly when a
    preview image is stored, so the modal is shown exactly when the flag is
    on. *)
Theorem X4_modal_consistent (parseFloat : string -> number) (events : list Event)
    (st : AppState) :
  run parseFloat events initialState = Some st ->
  isPreviewOpen st = isSome (previewImageUrl st) /\
  modalShown st = isPreviewOpen st.
Proof.
  intros Hrun.
  destruct (Inv_run parseFloat events _ _ Inv_initial Hrun) as (_ & _ & _ & _ & H & _).
  split; [exact H |]. unfold modalShown. rewrite <- H. apply andb_diag.
Qed.

Lemma X4_modal_consistent_witness :
  isPreviewOpen afterSession = isSome (previewImageUrl afterSession) /\
  modalShown afterSession = isPreviewOpen afterSession.
Proof.
  apply (X4_modal_consistent parseFloatDecimal exampleSession afterSession).
  vm_compute. reflexivity.
Defined.

Lemma toUnsignedLong_half (n : Z) :
  (0 <= n < 2 ^ 32)%Z -> toUnsignedLong (half (ofInt n)) = (n / 2)%Z.
Proof.
  intros Hn. unfold toUnsignedLong, half, ofInt, Qtrunc.
  assert (Hq : Qred (inject_Z n / 2) == n # 2).
  { rewrite Qred_correct. unfold Qeq, Qdiv, Qmult, Qinv, inject_Z. simpl. lia. }
  assert (Hpos : Qle_bool 0 (Qred (inject_Z n / 2)) = true).
  { apply Qle_bool_iff. rewrite Hq. unfold Qle. simpl. lia. }
  rewrite Hpos, (Qfloor_comp _ _ Hq). unfold Qfloor.
  apply Z.mod_small. split.
  - apply Z.div_pos; lia.
  - apply Z.div_lt_upper_bound; lia.
Qed.

Lemma sectionsOf_created (env : CanvasEnv) (img : HTMLImageElement) (out : Dimensions)
    (s : ImageSection) :
  In (Some s) (sectionsOf env img out) ->
  drawnFrom (payload (dataUrl s)) = img /\
  mediaType (dataUrl s) =
    (if ((canvasWidth (payload (dataUrl s)) =? 0)
         || (canvasHeight (payload (dataUrl s)) =? 0))%Z
     then "" else "image/png") /\
  rw (sourceRect (payload (dataUrl s))) = half (ofInt (img_width img)) /\
  rh (sourceRect (payload (dataUrl s))) = half (ofInt (img_height img)) /\
  canvasWidth (payload (dataUrl s)) = toUnsignedLong (half (ofInt (img_width img))) /\
  canvasHeight (payload (dataUrl s)) = toUnsignedLong (half (ofInt (img_height img))) /\
  dimensions s = {| width := half (width out); height := half (height out) |}.
Proof.
  unfold sectionsOf, createSection. cbn [In].
  intros [H | [H | [H | [H | []]]]];
    match type of H with
    | (if negb (sectionContext env ?k) then _ else _) = _ =>
        destruct (sectionContext env k); simpl in H; [| discriminate H]
    end;
    injection H as <-;
    cbn [dataUrl payload mediaType toDataURL drawnFrom sourceRect rw rh
         canvasWidth canvasHeight dimensions];
    repeat split.
Qed.

(** X5: in every reachable state the section list is empty or has exactly
    four entries; in the latter case an image of at least 1 x 1 pixels is
    loaded, and every section of the list is cropped from that very image,
    from a rectangle of half its width and half its height.  The section is
    a PNG when its canvas has pixels, which it has when the image is at
    least 2 x 2 (and of unsigned 32-bit size); on a canvas 0 pixels wide or
    high, as for an image 1 pixel wide or high, it is the empty [data:,]. *)
Theorem X5_sections_of_current_image (parseFloat : string -> number)
    (events : list Event) (st : AppState) :
  run parseFloat events initialState = Some st ->
  splitSections st = [] \/
  (List.length (splitSections st) = 4%nat /\
   exists img,
     sourceImage st = Some img /\
     (1 <= img_width img)%Z /\ (1 <= img_height img)%Z /\
     forall s, In (Some s) (splitSections st) ->
       drawnFrom (payload (dataUrl s)) = img /\
       rw (sourceRect (payload (dataUrl s))) = half (ofInt (img_width img)) /\
       rh (sourceRect (payload (dataUrl s))) = half (ofInt (img_height img)) /\
       mediaType (dataUrl s) =
         (if ((canvasWidth (payload (dataUrl s)) =? 0)
              || (canvasHeight (payload (dataUrl s)) =? 0))%Z
          then "" else "image/png") /\
       ((2 <= img_width img < 2 ^ 32)%Z -> (2 <= img_height img < 2 ^ 32)%Z ->
        mediaType (dataUrl s) = "image/png") /\
       ((img_width img = 1 \/ img_height img = 1)%Z -> mediaType (dataUrl s) = "")).
Proof.
  intros Hrun.
  destruct (Inv_run parseFloat events _ _ Inv_initial Hrun)
    as (_ & _ & _ & _ & _ & [H | (img & env & out & Hsrc & HW & HH & Hsec)]).
  - now left.
  - right. rewrite Hsec. split; [reflexivity |].
    exists img. split; [exact Hsrc |]. split; [exact HW |]. split; [exact HH |].
    intros s Hs.
    destruct (sectionsOf_created env img out s Hs)
      as (Hfrom & Hmedia & Hrw & Hrh & Hcw & Hch & _).
    split; [exact Hfrom |]. split; [exact Hrw |]. split; [exact Hrh |].
    split; [exact Hmedia |]. split.
    + intros HW2 HH2. rewrite Hmedia, Hcw, Hch, !toUnsignedLong_half by lia.
      assert (1 <= img_width img / 2)%Z by (apply Z.div_le_lower_bound; lia).
      assert (1 <= img_height img / 2)%Z by (apply Z.div_le_lower_bound; lia).
      replace (img_width img / 2 =? 0)%Z with false by (symmetry; apply Z.eqb_neq; lia).
      replace (img_height img / 2 =? 0)%Z with false by (symmetry; apply Z.eqb_neq; lia).
      reflexivity.
    + intros [E | E]; rewrite Hmedia, Hcw, Hch, E.
      * reflexivity.
      * change (toUnsignedLong (half (ofInt 1))) with 0%Z.
        rewrite Z.eqb_refl. now rewrite orb_true_r.
Qed.

Lemma X5_sections_of_current_image_witness :
  List.length (splitSections afterSession) = 4%nat /\
  sourceImage afterSession = Some {| img_width := 801; img_height := 600 |} /\
  forall s, In (Some s) (splitSections afterSession) ->
    drawnFrom (payload (dataUrl s)) = {| img_width := 801; img_height := 600 |} /\
    rw (sourceRect (payload (dataUrl s))) = lit 400.5 /\
    mediaType (dataUrl s) = "image/png".
Proof.
  destruct (X5_sections_of_current_image parseFloatDecimal exampleSession afterSession)
    as [Hempty | (Hlen & img & Hsrc & _ & _ & Hall)].
  - vm_compute. reflexivity.
  - discriminate Hempty.
  - split; [exact Hlen |]. split; [reflexivity |].
    assert (E : img = {| img_width := 801; img_height := 600 |})
      by (vm_compute in Hsrc; now injection Hsrc as <-).
    subst img. intros s Hs. destruct (Hall s Hs) as (H1 & H2 & _ & _ & Hpng & _).
    split; [exact H1 |]. split; [exact H2 |].
    apply Hpng; simpl; lia.
Defined.

(** ** What single events change *)

Lemma downloadAllSections_state (folderCreated : bool) (st : AppState) :
  fst (downloadAllSections folderCreated st) = st.
Proof.
  unfold downloadAllSections.
  destruct (List.length (splitSections st) =? 0)%nat; [reflexivity |].
  destruct (negb folderCreated); [reflexivity |].
  destruct (addSections _ _ _ _); reflexivity.
Qed.

Lemma dispatch_keeps_image (parseFloat : string -> number) (e : Event)
    (st st' : AppState) :
  dispatch parseFloat e st = Some st' ->
  isSome (sourceImage st) = true -> isSome (sourceImage st') = true.
Proof.
  intros He Hsrc. destruct e; simpl in He; try (injection He as <-); try exact Hsrc.
  - destruct file as [f |]; [| exact Hsrc]. unfold handleFileUpload.
    destruct (negb (includes validFileTypes (file_type f))); exact Hsrc.
  - rewrite handleDrop_first. destruct (hd_error files) as [f |]; [| exact Hsrc].
    unfold handleFileUpload.
    destruct (negb (includes validFileTypes (file_type f))); exact Hsrc.
  - reflexivity.
  - destruct (processImage_cases env st st' He)
      as [[_ ->] | [(img & _ & _ & ->) | (img & _ & _ & _ & _ & ->)]]; exact Hsrc.
  - now rewrite downloadAllSections_state.
Qed.

(** X6: an image, once loaded, is never unloaded: from any state with a
    source image, every sequence of events that runs to the end leaves a
    source image in place. *)
Theorem X6_image_never_unloaded (parseFloat : string -> number) (events : list Event) :
  forall st st',
    run parseFloat events st = Some st' ->
    isSome (sourceImage st) = true ->
    isSome (sourceImage st') = true.
Proof.
  induction events as [| e rest IH]; intros st st' Hrun Hsrc; simpl in Hrun.
  - now injection Hrun as <-.
  - destruct (dispatch parseFloat e st) as [st1 |] eqn:He; [| discriminate].
    exact (IH st1 st' Hrun (dispatch_keeps_image parseFloat e st st1 He Hsrc)).
Qed.

Lemma X6_image_never_unloaded_witness :
  isSome (sourceImage afterSession) = true.
Proof.
  apply (X6_image_never_unloaded parseFloatDecimal
           (tl (tl exampleSession)) odd801x600 afterSession).
  - vm_compute. reflexivity.
  - reflexivity.
Defined.

(** X7: the stored sections change only when an image finishes loading or
    the split runs: no change of format, orientation or custom dimensions,
    no upload, failed decode, download or preview touches them. *)
Theorem X7_sections_change_only_on_load_or_split (parseFloat : string -> number)
    (e : Event) (st st' : AppState) :
  dispatch parseFloat e st = Some st' ->
  splitSections st' <> splitSections st ->
  (exists img, e = ImageLoaded img) \/ (exists env, e = SplitClicked env).
Proof.
  intros He Hneq.
  destruct e; simpl in He;
    try (injection He as <-); try (exfalso; apply Hneq; reflexivity).
  - exfalso. apply Hneq. destruct file as [f |]; [| reflexivity].
    unfold handleFileUpload.
    destruct (negb (includes validFileTypes (file_type f))); reflexivity.
  - exfalso. apply Hneq. rewrite handleDrop_first.
    destruct (hd_error files) as [f |]; [| reflexivity]. unfold handleFileUpload.
    destruct (negb (includes validFileTypes (file_type f))); reflexivity.
  - left. now exists img.
  - right. now exists env.
  - exfalso. apply Hneq. now rewrite downloadAllSections_state.
Qed.

Lemma X7_sections_change_only_on_load_or_split_witness :
  (exists img, SplitClicked allContexts = ImageLoaded img) \/
  (exists env, SplitClicked allContexts = SplitClicked env).
Proof.
  apply (X7_sections_change_only_on_load_or_split parseFloatDecimal
           (SplitClicked allContexts) odd801x600 splitExample).
  - reflexivity.
  - discriminate.
Defined.

(** X8: an error message that is shown goes away only when a file of an
    accepted type is chosen or dropped; in particular a later successful
    split or image load leaves it on the page. *)
Theorem X8_error_cleared_only_by_accepted_file (parseFloat : string -> number)
    (e : Event) (st st' : AppState) :
  dispatch parseFloat e st = Some st' ->
  error st <> None -> error st' = None ->
  exists f,
    In (file_type f) ["image/jpeg"; "image/png"; "image/tiff"] /\
    (e = FileChosen (Some f) \/ exists others, e = FilesDropped (f :: others)).
Proof.
  intros He Hshown Hgone.
  destruct e; simpl in He;
    try (injection He as <-); try (exfalso; apply Hshown; exact Hgone).
  - destruct file as [f |]; [| exfalso; apply Hshown; exact Hgone].
    destruct (includes validFileTypes (file_type f)) eqn:E.
    + exists f. split; [now apply includes_In | now left].
    + rewrite handleFileUpload_rejected in Hgone by exact E. discriminate Hgone.
  - destruct files as [| f others]; [exfalso; apply Hshown; exact Hgone |].
    rewrite handleDrop_first in Hgone. cbn [hd_error] in Hgone.
    destruct (includes validFileTypes (file_type f)) eqn:E.
    + exists f. split; [now apply includes_In | right; now exists others].
    + rewrite handleFileUpload_rejected in Hgone by exact E. discriminate Hgone.
  - discriminate Hgone.
  - destruct (processImage_cases env st st' He)
      as [[_ ->] | [(img & _ & _ & ->) | (img & _ & _ & _ & _ & ->)]];
      solve [exfalso; apply Hshown; exact Hgone | discriminate Hgone].
  - exfalso. apply Hshown. now rewrite downloadAllSections_state in Hgone.
Qed.

Lemma X8_error_cleared_only_by_accepted_file_witness :
  exists f,
    In (file_type f) ["image/jpeg"; "image/png"; "image/tiff"] /\
    (FileChosen (Some scanTiff) = FileChosen (Some f) \/
     exists others, FileChosen (Some scanTiff) = FilesDropped (f :: others)).
Proof.
  apply (X8_error_cleared_only_by_accepted_file parseFloatDecimal
           (FileChosen (Some scanTiff)) refusedState
           (fst (handleFileUpload (Some scanTiff) refusedState))).
  - reflexivity.
  - discriminate.
  - reflexivity.
Defined.

(** ** Upload, decode and their outcomes *)

(** X9: a file of an accepted type starts a decode of that very file and
    leaves the loaded image and its sections in place until the decode
    ends; when it ends well, the new image replaces the old one, the old
    sections are dropped, the error message is gone, the file name and type
    are those of the file, and the format, orientation and custom
    dimensions are kept. *)
Theorem X9_accepted_upload_then_load (f : File) (img : HTMLImageElement) (st : AppState) :
  In (file_type f) ["image/jpeg"; "image/png"; "image/tiff"] ->
  let st1 := fst (handleFileUpload (Some f) st) in
  let st2 := img_onload img st1 in
  snd (handleFileUpload (Some f) st) = Some f /\
  (sourceImage st1 = sourceImage st /\ splitSections st1 = splitSections st) /\
  (sourceImage st2 = Some img /\ splitSections st2 = [] /\ outputShown st2 = false /\
   error st2 = None /\ fileName st2 = file_name f /\ fileType st2 = file_type f) /\
  (paperFormat st2 = paperFormat st /\ orientation st2 = orientation st /\
   customDimensions st2 = customDimensions st /\
   getCurrentDimensions st2 = getCurrentDimensions st).
Proof.
  intros Hin. cbv zeta.
  rewrite handleFileUpload_accepted by (apply includes_In; exact Hin).
  simpl. repeat split.
Qed.

Lemma X9_accepted_upload_then_load_witness :
  let st2 := img_onload {| img_width := 10; img_height := 10 |}
               (fst (handleFileUpload (Some scanTiff) splitExample)) in
  List.length (splitSections splitExample) = 4%nat /\
  sourceImage st2 = Some {| img_width := 10; img_height := 10 |} /\
  splitSections st2 = [] /\ fileName st2 = "scan.tiff".
Proof.
  destruct (X9_accepted_upload_then_load scanTiff
              {| img_width := 10; img_height := 10 |} splitExample)
    as (_ & _ & (H1 & H2 & _ & _ & H3 & _) & _).
  - simpl. auto.
  - cbv zeta. split; [reflexivity |]. split; [exact H1 |]. split; [exact H2 | exact H3].
Defined.

(** X10: when the decode of an accepted file fails, the page keeps the old
    image and the old sections but already carries the new file's name:
    sections downloaded from then on are named after the file that failed
    to load. *)
Theorem X10_failed_decode_keeps_image_takes_name (f : File) (st : AppState)
    (u : DataUrl) (index : nat) :
  In (file_type f) ["image/jpeg"; "image/png"; "image/tiff"] ->
  let st2 := img_onerror (fst (handleFileUpload (Some f) st)) in
  sourceImage st2 = sourceImage st /\
  splitSections st2 = splitSections st /\
  error st2 = Some "Failed to load image. Please try another file." /\
  fileName st2 = file_name f /\
  download (downloadSection st2 u index) = sectionName (file_name f) (index + 1).
Proof.
  intros Hin. cbv zeta.
  rewrite handleFileUpload_accepted by (apply includes_In; exact Hin).
  unfold downloadSection, sectionName. simpl. rewrite split_hd. repeat split.
Qed.

Lemma X10_failed_decode_keeps_image_takes_name_witness :
  let st2 := img_onerror (fst (handleFileUpload (Some scanTiff) splitExample)) in
  fileName splitExample = "photo.JPG" /\
  splitSections st2 = splitSections splitExample /\
  download (downloadSection st2 (dataUrl exampleSecond) 1) = "scan_section_2.png".
Proof.
  destruct (X10_failed_decode_keeps_image_takes_name scanTiff splitExample
              (dataUrl exampleSecond) 1)
    as (_ & H2 & _ & _ & H5).
  - simpl. auto.
  - cbv zeta. split; [reflexivity |]. split; [exact H2 | exact H5].
Defined.

(** ** More on the partitioner *)

(** X11: after a split of an image of [W] by [H] pixels (unsigned 32-bit
    sizes, at least 1), every section canvas is [floor (W/2)] pixels wide
    and [floor (H/2)] high, for all four sections alike: two of them side
    by side span [W] pixels when [W] is even and [W - 1] when it is odd.  *)
Theorem X11_section_canvas_size (env : CanvasEnv) (st st' : AppState)
    (img : HTMLImageElement) (s : ImageSection) :
  sourceImage st = Some img ->
  (1 <= img_width img < 2 ^ 32)%Z -> (1 <= img_height img < 2 ^ 32)%Z ->
  mainContext env = true ->
  processImage env st = Some st' ->
  In (Some s) (splitSections st') ->
  canvasWidth (payload (dataUrl s)) = (img_width img / 2)%Z /\
  canvasHeight (payload (dataUrl s)) = (img_height img / 2)%Z /\
  (2 * canvasWidth (payload (dataUrl s)) = img_width img - img_width img mod 2)%Z /\
  (2 * canvasHeight (payload (dataUrl s)) = img_height img - img_height img mod 2)%Z.
Proof.
  intros Hsrc HW HH Hctx Hrun Hs.
  destruct (processImage_cases env st st' Hrun)
    as [[Hnone _] | [(i & _ & Hno & _) | (i & Hi & _ & _ & _ & ->)]].
  - rewrite Hsrc in Hnone. discriminate Hnone.
  - rewrite Hctx in Hno. discriminate Hno.
  - rewrite Hsrc in Hi. injection Hi as <-. simpl in Hs.
    destruct (sectionsOf_created env img _ s Hs) as (_ & _ & _ & _ & Hcw & Hch & _).
    rewrite Hcw, Hch, !toUnsignedLong_half by lia.
    repeat split; try reflexivity.
    + pose proof (Z.div_mod (img_width img) 2). lia.
    + pose proof (Z.div_mod (img_height img) 2). lia.
Qed.

Lemma X11_section_canvas_size_witness :
  canvasWidth (payload (dataUrl exampleSecond)) = 400%Z /\
  canvasHeight (payload (dataUrl exampleSecond)) = 300%Z /\
  (2 * canvasWidth (payload (dataUrl exampleSecond)) = 800)%Z.
Proof.
  destruct (X11_section_canvas_size allContexts odd801x600 splitExample
              {| img_width := 801; img_height := 600 |} exampleSecond)
    as (Hw & Hh & Hspan & _).
  - reflexivity.
  - simpl; lia.
  - simpl; lia.
  - reflexivity.
  - reflexivity.
  - right; left; reflexivity.
  - split; [exact Hw |]. split; [exact Hh | exact Hspan].
Defined.

(** X12: splitting again with nothing changed in between changes nothing:
    a second run of [processImage] in the same environment returns the
    state the first run produced. *)
Theorem X12_split_idempotent (env : CanvasEnv) (st st' : AppState) :
  processImage env st = Some st' -> processImage env st' = Some st'.
Proof.
  intros Hrun.
  destruct (processImage_cases env st st' Hrun)
    as [[Hsrc ->] | [(img & Hsrc & Hctx & ->) | (img & Hsrc & Hctx & HW & HH & ->)]].
  - exact Hrun.
  - unfold processImage. cbn [sourceImage setIsProcessing setError].
    rewrite Hsrc, Hctx. reflexivity.
  - rewrite (processImage_split env _ img); try assumption.
    reflexivity.
Qed.

Lemma X12_split_idempotent_witness :
  processImage allContexts splitExample = Some splitExample.
Proof.
  apply (X12_split_idempotent allContexts odd801x600 splitExample). reflexivity.
Defined.

(** X13: a split never touches the loaded image, the file name and type,
    the format, orientation and custom dimensions, the preview or the theme;
    it changes the error message only when the full-size canvas has no
    context, and the sections only when it has one. *)
Theorem X13_split_frame (env : CanvasEnv) (st st' : AppState) :
  processImage env st = Some st' ->
  (darkMode st' = darkMode st /\ sourceImage st' = sourceImage st /\
   fileName st' = fileName st /\ fileType st' = fileType st /\
   paperFormat st' = paperFormat st /\ orientation st' = orientation st /\
   customDimensions st' = customDimensions st /\
   previewImageUrl st' = previewImageUrl st /\
   isPreviewOpen st' = isPreviewOpen st) /\
  (error st' <> error st -> mainContext env = false) /\
  (splitSections st' <> splitSections st -> mainContext env = true).
Proof.
  intros Hrun.
  destruct (processImage_cases env st st' Hrun)
    as [[Hsrc ->] | [(img & Hsrc & Hctx & ->) | (img & Hsrc & Hctx & HW & HH & ->)]];
    simpl; repeat split; auto; intros Hneq; exfalso; apply Hneq; reflexivity.
Qed.

Lemma X13_split_frame_witness :
  fileName splitExample = "photo.JPG" /\
  sourceImage splitExample = Some {| img_width := 801; img_height := 600 |} /\
  error splitExample = None.
Proof.
  destruct (X13_split_frame allContexts odd801x600 splitExample) as (Hsame & _ & _).
  - reflexivity.
  - destruct Hsame as (_ & Hsrc & Hname & _).
    split; [exact Hname |]. split; [exact Hsrc | reflexivity].
Defined.

(** ** The archive *)

Lemma sections_null_or_all (l : list (option ImageSection)) :
  In None l \/ exists ss, l = map Some ss.
Proof.
  induction l as [| [s |] rest IH].
  - right. now exists [].
  - destruct IH as [H | (ss & ->)].
    + left. now right.
    + right. now exists (s :: ss).
  - left. now left.
Qed.

Lemma map_Some_no_null (ss : list ImageSection) : ~ In None (map Some ss).
Proof. induction ss as [| s rest IH]; simpl; intuition discriminate. Qed.

Lemma downloadAllSections_saved (st : AppState) (ss : list ImageSection) :
  splitSections st = map Some ss -> ss <> [] ->
  downloadAllSections true st =
  (st, Saved {| folder := "split_images";
                entries := archiveEntries (fileName st) 0 ss;
                savedAs := beforeFirstDot (fileName st) ++ "_split_images.zip" |}).
Proof.
  intros Hss Hne. unfold downloadAllSections. rewrite Hss, length_map.
  destruct ss as [| s0 rest]; [contradiction |]. cbn [List.length Nat.eqb negb].
  now rewrite (addSections_all (fileName st) (s0 :: rest) 0 []), split_hd.
Qed.

Lemma downloadAllSections_threw (st : AppState) :
  In None (splitSections st) -> downloadAllSections true st = (st, Threw).
Proof.
  intros Hin. unfold downloadAllSections.
  destruct (splitSections st) as [| o rest] eqn:E; [destruct Hin |].
  cbn [List.length Nat.eqb negb].
  now rewrite (addSections_null (fileName st) (o :: rest) 0 [] Hin).
Qed.

Lemma downloadAllSections_empty (folderCreated : bool) (st : AppState) :
  splitSections st = [] -> downloadAllSections folderCreated st = (st, NoAction).
Proof. intros H. unfold downloadAllSections. now rewrite H. Qed.

(** X14: the three outcomes of "Download All".  Nothing happens exactly when
    there are no sections or no folder could be created; the export throws
    exactly when a folder was created and some section is [null]; otherwise
    one archive is saved, named after the file name cut before its first
    dot, with the folder "split_images" holding one entry per section.  The
    state is never changed. *)
Theorem X14_archive_outcomes (folderCreated : bool) (st : AppState) :
  fst (downloadAllSections folderCreated st) = st /\
  (snd (downloadAllSections folderCreated st) = NoAction <->
   splitSections st = [] \/ folderCreated = false) /\
  (snd (downloadAllSections folderCreated st) = Threw <->
   folderCreated = true /\ In None (splitSections st)) /\
  (forall archive,
     snd (downloadAllSections folderCreated st) = Saved archive <->
     folderCreated = true /\
     exists ss, ss <> [] /\ splitSections st = map Some ss /\
       archive = {| folder := "split_images";
                    entries := archiveEntries (fileName st) 0 ss;
                    savedAs := beforeFirstDot (fileName st) ++ "_split_images.zip" |}).
Proof.
  split; [apply downloadAllSections_state |].
  destruct (splitSections st) as [| o rest] eqn:E.
  - rewrite (downloadAllSections_empty folderCreated st E). simpl.
    split; [| split].
    + split; auto.
    + split; [discriminate | now intros [_ []]].
    + intros archive. split; [discriminate |].
      intros (_ & ss & Hne & Hss & _). destruct ss; [contradiction | discriminate Hss].
  - destruct folderCreated.
    + destruct (sections_null_or_all (splitSections st)) as [Hnull | (ss & Hss)].
      * rewrite (downloadAllSections_threw st Hnull). rewrite <- E. simpl.
        split; [| split].
        -- split; [discriminate | intros [H | H]; [rewrite H in E |]; discriminate].
        -- split; auto.
        -- intros archive. split; [discriminate |].
           intros (_ & ss & _ & Hss & _). exfalso.
           rewrite Hss in Hnull. exact (map_Some_no_null ss Hnull).
      * assert (Hne : ss <> []) by (intros ->; rewrite E in Hss; discriminate Hss).
        rewrite (downloadAllSections_saved st ss Hss Hne). rewrite <- E. simpl.
        split; [| split].
        -- split; [discriminate | intros [H | H]; [rewrite H in E |]; discriminate].
        -- split; [discriminate |]. intros [_ Hnull]. exfalso.
           rewrite Hss in Hnull. exact (map_Some_no_null ss Hnull).
        -- intros archive. split.
           ++ intros [= <-]. split; [reflexivity |]. exists ss. auto.
           ++ intros (_ & ss' & _ & Hss' & ->).
              assert (ss' = ss) as ->; [| reflexivity].
              rewrite Hss in Hss'. clear - Hss'. revert ss' Hss'.
              induction ss as [| a l IH]; intros [| b l'] H; try discriminate H;
                [reflexivity |].
              injection H as -> H. f_equal. now apply IH.
    + unfold downloadAllSections. rewrite E. simpl.
      split; [| split].
      * split; auto.
      * split; [discriminate | intros [H _]; discriminate H].
      * intros archive. split; [discriminate | intros [H _]; discriminate H].
Qed.

Lemma X14_archive_outcomes_witness :
  snd (downloadAllSections true splitExample) =
  Saved {| folder := "split_images";
           entries := archiveEntries "photo.JPG" 0 exampleSections;
           savedAs := "photo_split_images.zip" |} /\
  snd (downloadAllSections true odd801x600) = NoAction.
Proof.
  destruct (X14_archive_outcomes true splitExample) as (_ & _ & _ & Hsaved).
  destruct (X14_archive_outcomes true odd801x600) as (_ & Hnone & _).
  split.
  - apply Hsaved. split; [reflexivity |]. exists exampleSections.
    split; [discriminate |]. split; reflexivity.
  - apply Hnone. left. reflexivity.
Defined.

(** *** Entry names *)

Lemma append_length (s t : string) :
  String.length (s ++ t) = (String.length s + String.length t)%nat.
Proof. induction s as [| c r IH]; simpl; [reflexivity | now rewrite IH]. Qed.

Lemma append_cancel_l (s a b : string) : s ++ a = s ++ b -> a = b.
Proof.
  induction s as [| c r IH]; simpl; [auto |]. intros [= H]. now apply IH.
Qed.

Lemma append_cancel_r (t : string) : forall a b, a ++ t = b ++ t -> a = b.
Proof.
  induction a as [| c a IH]; intros [| d b] H; simpl in H.
  - reflexivity.
  - apply (f_equal String.length) in H. simpl in H. rewrite append_length in H. lia.
  - apply (f_equal String.length) in H. simpl in H. rewrite append_length in H. lia.
  - injection H as -> H. f_equal. now apply IH.
Qed.

Lemma toString_inj (i j : nat) : toString i = toString j -> i = j.
Proof.
  unfold toString. intros H.
  apply (f_equal NilEmpty.uint_of_string) in H. rewrite !NilEmpty.usu in H.
  injection H as H. apply (f_equal Nat.of_uint) in H.
  now rewrite !DecimalNat.Unsigned.of_to in H.
Qed.

Lemma sectionName_inj (original : string) (i j : nat) :
  sectionName original i = sectionName original j -> i = j.
Proof.
  unfold sectionName. intros H.
  apply append_cancel_l, append_cancel_l, append_cancel_r in H.
  now apply toString_inj.
Qed.

Lemma archiveEntries_names (original : string) (ss : list ImageSection) :
  forall index x,
    In x (map fst (archiveEntries original index ss)) ->
    exists j, (index + 1 <= j)%nat /\ x = sectionName original j.
Proof.
  induction ss as [| s rest IH]; intros index x Hin; simpl in Hin.
  - destruct Hin.
  - destruct Hin as [<- | Hin].
    + exists (index + 1)%nat. split; [lia | reflexivity].
    + destruct (IH (S index) x Hin) as (j & Hj & ->). exists j. split; [lia | reflexivity].
Qed.

Lemma archiveEntries_NoDup (original : string) (ss : list ImageSection) :
  forall index, NoDup (map fst (archiveEntries original index ss)).
Proof.
  induction ss as [| s rest IH]; intros index; simpl; constructor.
  - intros Hin. destruct (archiveEntries_names original rest (S index) _ Hin) as (j & Hj & E).
    apply sectionName_inj in E. lia.
  - apply IH.
Qed.

Lemma archiveEntries_payloads (original : string) (ss : list ImageSection) :
  forall index,
    map snd (archiveEntries original index ss) = map (fun s => payload (dataUrl s)) ss.
Proof.
  induction ss as [| s rest IH]; intros index; simpl; [reflexivity |].
  now rewrite IH.
Qed.

(** X15: when every section is there, the archive holds exactly one entry
    per section, in the order of the sections and with their payloads, and
    the entry names are pairwise different, so that no entry replaces
    another in the folder. *)
Theorem X15_archive_entries (st : AppState) (ss : list ImageSection) :
  splitSections st = map Some ss -> ss <> [] ->
  exists archive,
    snd (downloadAllSections true st) = Saved archive /\
    List.length (entries archive) = List.length ss /\
    map snd (entries archive) = map (fun s => payload (dataUrl s)) ss /\
    NoDup (map fst (entries archive)).
Proof.
  intros Hss Hne. rewrite (downloadAllSections_saved st ss Hss Hne).
  eexists. split; [reflexivity |]. cbn [entries].
  split; [| split].
  - rewrite <- (length_map snd), archiveEntries_payloads. apply length_map.
  - apply archiveEntries_payloads.
  - apply archiveEntries_NoDup.
Qed.

Lemma X15_archive_entries_witness :
  exists archive,
    snd (downloadAllSections true splitExample) = Saved archive /\
    List.length (entries archive) = 4%nat /\
    map snd (entries archive) = map (fun s => payload (dataUrl s)) exampleSections /\
    NoDup (map fst (entries archive)).
Proof.
  apply (X15_archive_entries splitExample exampleSections).
  - reflexivity.
  - discriminate.
Defined.

Lemma renderCards_null (sections : list (option ImageSection)) :
  forall index, In None sections -> renderCards sections index = None.
Proof.
  induction sections as [| [s |] rest IH]; intros index Hin; simpl.
  - destruct Hin.
  - rewrite IH; [reflexivity |]. destruct Hin as [H | H]; [discriminate H | exact H].
  - reflexivity.
Qed.

(** X16: after a split in which some section canvas had no context, the
    stored list holds [null] in that section's place.  Rendering the output
    section throws on it, and the handler [downloadAllSections], run on
    that state, throws as well and saves nothing: both read [dataUrl] of the
    [null] as if it were a section. *)
Theorem X16_null_section_breaks_archive (env : CanvasEnv) (st st' : AppState)
    (img : HTMLImageElement) (k : nat) :
  sourceImage st = Some img ->
  (1 <= img_width img)%Z -> (1 <= img_height img)%Z ->
  mainContext env = true ->
  (k < 4)%nat -> sectionContext env k = false ->
  processImage env st = Some st' ->
  nth_error (splitSections st') k = Some None /\
  renderOutput st' = RenderThrew /\
  downloadAllSections true st' = (st', Threw).
Proof.
  intros Hsrc HW HH Hctx Hk Hsec Hrun.
  destruct (processImage_null_section env st img k Hsrc HW HH Hctx Hk Hsec)
    as (st1 & Hrun1 & Hlen & Hnth & _).
  rewrite Hrun in Hrun1. injection Hrun1 as <-.
  pose proof (nth_error_In _ _ Hnth) as Hin.
  split; [exact Hnth |]. split.
  - unfold renderOutput, outputShown. rewrite Hlen. cbn [Nat.ltb Nat.leb].
    now rewrite (renderCards_null _ 0 Hin).
  - now apply downloadAllSections_threw.
Qed.

Lemma X16_null_section_breaks_archive_witness :
  exists st',
    processImage secondSectionBroken odd801x600 = Some st' /\
    nth_error (splitSections st') 1 = Some None /\
    renderOutput st' = RenderThrew /\
    downloadAllSections true st' = (st', Threw).
Proof.
  eexists. split; [reflexivity |].
  apply (X16_null_section_breaks_archive secondSectionBroken odd801x600 _
           {| img_width := 801; img_height := 600 |} 1).
  - reflexivity.
  - simpl; lia.
  - simpl; lia.
  - reflexivity.
  - lia.
  - reflexivity.
  - reflexivity.
Defined.

(** ** Preview and theme *)

(** X17: a preview shows the modal with the image asked for, and a later
    preview replaces it; closing hides the modal and, from a state with no
    preview, gives back exactly the state from before the preview. *)
Theorem X17_preview_open_close (u u' : DataUrl) (st : AppState) :
  modalShown (previewSection u st) = true /\
  previewImageUrl (previewSection u st) = Some u /\
  previewSection u' (previewSection u st) = previewSection u' st /\
  modalShown (closePreview st) = false /\
  closePreview (closePreview st) = closePreview st /\
  (isPreviewOpen st = false -> previewImageUrl st = None ->
   closePreview (previewSection u st) = st).
Proof.
  repeat split.
  destruct st as [dm si fn ft pf o cd ss ip er pu po]. simpl.
  intros -> ->. reflexivity.
Qed.

Lemma X17_preview_open_close_witness :
  closePreview (previewSection (dataUrl exampleSecond) splitExample) = splitExample.
Proof.
  destruct (X17_preview_open_close (dataUrl exampleSecond) (dataUrl exampleSecond)
              splitExample) as (_ & _ & _ & _ & _ & Hback).
  apply Hback; reflexivity.
Defined.

Lemma classList_add_In (token t : string) (l : list string) :
  In t (classList_add token l) <-> t = token \/ In t l.
Proof.
  unfold classList_add. destruct (includes l token) eqn:E.
  - apply includes_In in E. split; [auto | intros [-> | H]; assumption].
  - rewrite in_app_iff. simpl. split.
    + intros [H | [H | []]]; [now right | now left].
    + intros [-> | H]; [right; now left | now left].
Qed.

Lemma classList_remove_In (token t : string) (l : list string) :
  In t (classList_remove token l) <-> t <> token /\ In t l.
Proof.
  unfold classList_remove. rewrite filter_In, negb_true_iff, String.eqb_neq. tauto.
Qed.

Lemma classList_add_NoDup (token : string) (l : list string) :
  NoDup l -> NoDup (classList_add token l).
Proof.
  intros Hl. unfold classList_add. destruct (includes l token) eqn:E; [exact Hl |].
  assert (Hnot : ~ In token l).
  { intros H. apply includes_In in H. rewrite H in E. discriminate E. }
  clear E. induction Hl as [| x l Hx Hl IH]; simpl.
  - constructor; [intros [] | constructor].
  - constructor.
    + rewrite in_app_iff. simpl. intros [H | [H | []]]; [now apply Hx |].
      apply Hnot. now left.
    + apply IH. intros H. apply Hnot. now right.
Qed.

(** X18: once the theme effect has run, the root element carries the class
    "dark" exactly when dark mode is on; every other class is as before, a
    class list without repetition stays so, and running the effect again
    changes nothing. *)
Theorem X18_dark_class (dark : bool) (classList : list string) :
  (In "dark" (darkModeEffect dark classList) <-> dark = true) /\
  (forall t, t <> "dark" -> (In t (darkModeEffect dark classList) <-> In t classList)) /\
  (NoDup classList -> NoDup (darkModeEffect dark classList)) /\
  darkModeEffect dark (darkModeEffect dark classList) = darkModeEffect dark classList.
Proof.
  unfold darkModeEffect. destruct dark.
  - split; [| split; [| split]].
    + rewrite classList_add_In. split; auto.
    + intros t Ht. rewrite classList_add_In. tauto.
    + apply classList_add_NoDup.
    + unfold classList_add at 1.
      replace (includes (classList_add "dark" classList) "dark") with true; [reflexivity |].
      symmetry. apply includes_In, classList_add_In. now left.
  - split; [| split; [| split]].
    + rewrite classList_remove_In. split; [intros [H _]; now elim H | discriminate].
    + intros t Ht. rewrite classList_remove_In. tauto.
    + apply NoDup_filter.
    + unfold classList_remove.
      induction classList as [| c l IH]; simpl; [reflexivity |].
      destruct (negb (c =? "dark")) eqn:E; simpl; [rewrite E |]; now rewrite IH.
Qed.

Lemma X18_dark_class_witness :
  darkModeEffect true ["app"] = ["app"; "dark"] /\
  NoDup (darkModeEffect true ["app"]) /\
  darkModeEffect false ["app"; "dark"] = ["app"].
Proof.
  destruct (X18_dark_class true ["app"]) as (_ & _ & Hnodup & _).
  split; [reflexivity |]. split; [| reflexivity].
  apply Hnodup. constructor; [intros [] | constructor].
Defined.

(** ** Splitting names *)

Lemma split_nonempty (c : ascii) (s : string) : split c s <> [].
Proof.
  destruct s as [| d r]; simpl; [discriminate |].
  destruct (Ascii.eqb d c); [discriminate |]. destruct (split c r); discriminate.
Qed.

Lemma join_cons (sep piece : string) (rest : list string) :
  rest <> [] -> join sep (piece :: rest) = piece ++ sep ++ join sep rest.
Proof. destruct rest; [contradiction | reflexivity]. Qed.

(** X19: [split] cuts a string at every occurrence of the separator and
    nowhere else: joining the pieces with the separator gives the string
    back, no piece holds the separator, and there is one piece more than
    there are separators (so there is always a first piece). *)
Theorem X19_split_join (c : ascii) (s : string) :
  join (String c "") (split c s) = s /\
  Forall (fun piece => countChar c piece = O) (split c s) /\
  List.length (split c s) = S (countChar c s).
Proof.
  induction s as [| d r (IHj & IHf & IHl)]; simpl.
  - repeat split. repeat constructor.
  - pose proof (split_nonempty c r) as Hne.
    destruct (Ascii.eqb d c) eqn:E.
    + apply Ascii.eqb_eq in E. subst d.
      rewrite join_cons by exact Hne. rewrite IHj. simpl. repeat split.
      * constructor; [reflexivity | exact IHf].
      * now rewrite IHl.
    + destruct (split c r) as [| p ps] eqn:Er; [contradiction |].
      repeat split.
      * rewrite <- IHj. destruct ps; reflexivity.
      * inversion IHf as [| ? ? Hp Hps]; subst. constructor; [| exact Hps].
        simpl. now rewrite E.
      * exact IHl.
Qed.

(** ** The crop rectangles in the plane *)

Lemma Qle_bool_false (a b : Q) : Qle_bool a b = false -> b < a.
Proof.
  intros E. apply Qnot_le_lt. intros H. apply Qle_bool_iff in H.
  rewrite H in E. discriminate E.
Qed.

Ltac decide_Qle_bool :=
  repeat match goal with
         | |- context [Qle_bool ?a ?b] =>
             let E := fresh "E" in
             destruct (Qle_bool a b) eqn:E;
             [apply Qle_bool_iff in E | apply Qle_bool_false in E];
             try (exfalso; lra)
         | H : context [Qle_bool ?a ?b] |- _ =>
             let E := fresh "E" in
             destruct (Qle_bool a b) eqn:E;
             [apply Qle_bool_iff in E | apply Qle_bool_false in E];
             try (exfalso; lra)
         end.

(** X20: whatever the size of the image, odd or even, the four rectangles a
    split crops partition the area of the image: every point of
    [0, W) x [0, H) lies in exactly one of them and none of them reaches
    outside.  (What is lost on odd sizes is lost by the section canvases,
    which are [floor (W/2)] by [floor (H/2)] pixels.) *)
Theorem X20_crop_rectangles_partition (env : CanvasEnv) (st st' : AppState)
    (img : HTMLImageElement) :
  sourceImage st = Some img ->
  (1 <= img_width img)%Z -> (1 <= img_height img)%Z ->
  mainContext env = true ->
  (forall k, sectionContext env k = true) ->
  processImage env st = Some st' ->
  exists rects,
    map regionOf (splitSections st') = map Some rects /\
    (forall px py : Q,
       0 <= px -> px < inject_Z (img_width img) ->
       0 <= py -> py < inject_Z (img_height img) ->
       List.length (filter (fun r => inRectAt r px py) rects) = 1%nat) /\
    (forall r (px py : Q),
       In r rects -> inRectAt r px py = true ->
       (0 <= px /\ px < inject_Z (img_width img)) /\
       (0 <= py /\ py < inject_Z (img_height img))).
Proof.
  intros Hsrc HW HH Hctx Hsec Hrun.
  destruct (processImage_regions env st img Hsrc HW HH Hctx Hsec) as (st1 & Hrun1 & Hreg).
  rewrite Hrun in Hrun1. injection Hrun1 as <-. cbv zeta in Hreg.
  match type of Hreg with _ = map Some ?l => exists l end.
  split; [exact Hreg |]. clear Hreg.
  unfold half, ofInt, lit.
  change (Qred 0) with 0.
  assert (Hw : Qred (inject_Z (img_width img) / 2) * 2 == inject_Z (img_width img))
    by (rewrite Qred_correct; field).
  assert (Hh : Qred (inject_Z (img_height img) / 2) * 2 == inject_Z (img_height img))
    by (rewrite Qred_correct; field).
  set (hw := Qred (inject_Z (img_width img) / 2)) in *.
  set (hh := Qred (inject_Z (img_height img) / 2)) in *.
  clearbody hw hh.
  split.
  - intros px py Hx0 Hx1 Hy0 Hy1. unfold inRectAt. cbn [filter rx ry rw rh].
    decide_Qle_bool; reflexivity.
  - intros r px py Hin Hr. cbn [In] in Hin.
    destruct Hin as [<- | [<- | [<- | [<- | []]]]];
      unfold inRectAt in Hr; cbn [rx ry rw rh] in Hr;
      decide_Qle_bool; try discriminate Hr; repeat split; lra.
Qed.

Lemma X20_crop_rectangles_partition_witness :
  exists rects,
    map regionOf (splitSections splitExample) = map Some rects /\
    List.length (filter (fun r => inRectAt r 400.25 10) rects) = 1%nat.
Proof.
  destruct (X20_crop_rectangles_partition allContexts odd801x600 splitExample
              {| img_width := 801; img_height := 600 |})
    as (rects & Hreg & Hcover & _).
  - reflexivity.
  - simpl; lia.
  - simpl; lia.
  - reflexivity.
  - reflexivity.
  - reflexivity.
  - exists rects. split; [exact Hreg |].
    apply Hcover; unfold Qle, Qlt; simpl; lia.
Defined.
